(** * prepdocs: the document-preparation script and its ingestion pipeline

    The first part embeds [app/backend/prepdocs.py] as it is written:
    [setup_file_strategy], [main] and the script body.  The classes the
    script imports from [prepdocslib] are not part of the sources at hand;
    their constructors are plain records here, and the behaviour of the
    pipeline they implement is modelled, in the second part, from the
    design document.  [AzureKeyCredential] of azure-core is the one
    constructor that can fail: it refuses a key that is not a string. *)

From Stdlib Require Import ZArith.
From Stdlib.Strings Require Import Byte.
From stdpp Require Import gmap strings list fin_maps.

Open Scope string_scope.

(** ** Values built by the script *)

(** [DocumentAction] of [prepdocslib.filestrategy]. *)
Inductive DocumentAction := Add | Remove | RemoveAll.

#[global] Instance DocumentAction_eq_dec : EqDecision DocumentAction.
Proof. solve_decision. Defined.

(** The namespace returned by [argparse]: [store_true] options are
    booleans, options with a literal default are strings, the positional
    [files] (nargs="?") and the options whose default is read from the
    environment may be [None]. *)
Record Args := {
  files : option string;
  useacls : bool;
  storageaccount : string;
  category : option string;
  container : string;
  storagekey : option string;
  tenantid : option string;
  searchservice : option string;
  index : option string;
  searchkey : option string;
  searchanalyzername : string;
  openaihost : string;
  openaiservice : string;
  openaideployment : string;
  openaimodelname : string;
  novectors : bool;
  disablebatchvectors : bool;
  remove : bool;
  removeall : bool;
  formrecognizerservice : option string;
  formrecognizerkey : option string;
  verbose : bool
}.

(** What an f-string writes for an optional value: [None] is formatted as
    the text None. *)
Definition fmt (o : option string) : string :=
  match o with Some s => s | None => "None" end.

(** An [AzureKeyCredential]: it holds a key, which is a string. *)
Record AzureKeyCredential := { key : string }.

Record BlobManager := {
  bm_endpoint : string;
  bm_container : string;
  bm_credential : option string;
  bm_verbose : bool
}.

Record DocumentAnalysisPdfParser := {
  pp_endpoint : string;
  pp_credential : AzureKeyCredential;
  pp_verbose : bool
}.

Record AzureOpenAIEmbeddingService := {
  open_ai_service : string;
  open_ai_deployment : string;
  open_ai_model_name : string;
  es_credential : AzureKeyCredential;
  disable_batch : bool;
  es_verbose : bool
}.

Record LocalListFileStrategy := {
  path_pattern : option string;
  lf_verbose : bool
}.

(** [TextSplitter()] is built without arguments. *)
Inductive TextSplitter := TextSplitter_default.

Record FileStrategy := {
  list_file_strategy : LocalListFileStrategy;
  blob_manager : BlobManager;
  pdf_parser : DocumentAnalysisPdfParser;
  text_splitter : TextSplitter;
  document_action : DocumentAction;
  embeddings : option AzureOpenAIEmbeddingService;
  search_analyzer_name : string;
  use_acls : bool;
  fs_category : option string
}.

Record SearchInfo := {
  si_endpoint : string;
  si_credential : AzureKeyCredential;
  index_name : option string;
  si_verbose : bool
}.

(** ** The process: world, standard output, strategy calls *)

(** The exceptions that can propagate: [TypeError] of the interpreter,
    and the error taxonomy of the design document (section 7). *)
Inductive error :=
| TypeError
| ConfigurationError
| ParseError
| EmbeddingError
| StorageError
| NotConfiguredError.

(** How a computation ends: it returns, the interpreter exits
    ([exit(code)] raises [SystemExit]), or an exception propagates. *)
Inductive outcome (A : Type) :=
| Returned (a : A)
| SystemExit (code : Z)
| Raised (e : error).
Arguments Returned {A} a.
Arguments SystemExit {A} code.
Arguments Raised {A} e.

(** What [print] wrote: a line of text, or the [repr] of the namespace. *)
Inductive printed :=
| Line (s : string)
| Repr (a : Args).

(** Calls of the two [Strategy] methods, recorded when the coroutine is
    entered and when its [await] returns. *)
Inductive method := Msetup | Mrun.

Inductive call :=
| Enter (m : method) (si : SearchInfo)
| Leave (m : method).

#[global] Instance method_eq_dec : EqDecision method.
Proof. solve_decision. Defined.

(** A computation over a state [S]. *)
Definition St (S A : Type) : Type := S -> outcome A * S.

Section Monad.

Context {S : Type}.

Definition ret {A} (a : A) : St S A := fun s => (Returned a, s).

Definition bind {A B} (m : St S A) (f : A -> St S B) : St S B :=
  fun s =>
    match m s with
    | (Returned a, s') => f a s'
    | (SystemExit c, s') => (SystemExit c, s')
    | (Raised e, s') => (Raised e, s')
    end.

Definition exit {A} (code : Z) : St S A := fun s => (SystemExit code, s).

Definition raise {A} (e : error) : St S A := fun s => (Raised e, s).

Definition when (b : bool) (m : St S unit) : St S unit :=
  if b then m else ret tt.

(** [AzureKeyCredential(key)]: the constructor raises [TypeError] when the
    key is not a string, that is, here, when it is [None]. *)
Definition AzureKeyCredential_new (k : option string) : St S AzureKeyCredential :=
  match k with
  | Some s => ret {| key := s |}
  | None => raise TypeError
  end.

End Monad.

Notation "'let*' x := m 'in' k" := (bind m (fun x => k))
  (at level 10, x name, m at level 100, k at level 200).
Notation "m ;; k" := (bind m (fun _ => k))
  (at level 100, k at level 200, right associativity).

Section Process.

(** [W] is everything outside the process that a strategy can change:
    the artifact store, the search index, the remote services. *)
Context {W : Type}.

Record process := {
  world : W;
  stdout : list printed;
  calls : list call
}.

Definition print (x : printed) : St process unit :=
  fun p => (Returned tt,
            {| world := world p; stdout := stdout p ++ [x]; calls := calls p |}).

(** The abstract class [Strategy]: two coroutines acting on the world. *)
Record Strategy := {
  setup : SearchInfo -> St W unit;
  run : SearchInfo -> St W unit
}.

Definition record_call (c : call) (p : process) : process :=
  {| world := world p; stdout := stdout p; calls := calls p ++ [c] |}.

Definition set_world (w : W) (p : process) : process :=
  {| world := w; stdout := stdout p; calls := calls p |}.

(** [await strategy.<meth>(search_info)]. *)
Definition await (meth : method) (body : SearchInfo -> St W unit)
    (si : SearchInfo) : St process unit :=
  fun p =>
    let p1 := record_call (Enter meth si) p in
    match body si (world p1) with
    | (Returned tt, w') => (Returned tt, record_call (Leave meth) (set_world w' p1))
    | (SystemExit c, w') => (SystemExit c, set_world w' p1)
    | (Raised e, w') => (Raised e, set_world w' p1)
    end.

End Process.

Arguments process W : clear implicits.
Arguments Strategy W : clear implicits.

(** ** prepdocs.py *)

Section Script.

Context {W : Type}.

(** [os.getenv]. *)
Variable getenv : string -> option string.

Definition setup_file_strategy (args : Args) : St (process W) FileStrategy :=
  let storage_creds := storagekey args in
  let blob_manager :=
    {| bm_endpoint := "https://" +:+ storageaccount args +:+ ".blob.core.windows.net";
       bm_container := container args;
       bm_credential := storage_creds;
       bm_verbose := verbose args |} in
  let* pdf_parser :=
    match formrecognizerservice args with
    | None =>
        print (Line "Error: Azure Form Recognizer service is not provided. Please provide formrecognizerservice") ;;
        exit 1
    | Some service =>
        let* formrecognizer_creds :=
          AzureKeyCredential_new (formrecognizerkey args) in
        ret {| pp_endpoint := "https://" +:+ service +:+ ".cognitiveservices.azure.com/";
               pp_credential := formrecognizer_creds;
               pp_verbose := verbose args |}
    end in
  let use_vectors := negb (novectors args) in
  let* embeddings :=
    if use_vectors && negb (String.eqb (openaihost args) "openai") then
      let* azure_open_ai_credential :=
        AzureKeyCredential_new (getenv "OPENAI_API_KEY") in
      ret (Some {| open_ai_service := openaiservice args;
                   open_ai_deployment := openaideployment args;
                   open_ai_model_name := openaimodelname args;
                   es_credential := azure_open_ai_credential;
                   disable_batch := disablebatchvectors args;
                   es_verbose := verbose args |})
    else ret None in
  print (Line "Processing files...") ;;
  print (Line ("Using local files in " +:+ fmt (files args))) ;;
  let list_file_strategy :=
    {| path_pattern := files args; lf_verbose := verbose args |} in
  let document_action :=
    if removeall args then RemoveAll
    else if remove args then Remove
    else Add in
  ret {| list_file_strategy := list_file_strategy;
         blob_manager := blob_manager;
         pdf_parser := pdf_parser;
         text_splitter := TextSplitter_default;
         document_action := document_action;
         embeddings := embeddings;
         search_analyzer_name := searchanalyzername args;
         use_acls := useacls args;
         fs_category := category args |}.

(** The [SearchInfo] of [main], once the credential is built. *)
Definition search_info_of (args : Args) (search_creds : AzureKeyCredential)
    : SearchInfo :=
  {| si_endpoint := "https://" +:+ fmt (searchservice args) +:+ ".search.windows.net/";
     si_credential := search_creds;
     index_name := index args;
     si_verbose := verbose args |}.

Definition main (strategy : Strategy W) (args : Args) : St (process W) unit :=
  let* search_creds := AzureKeyCredential_new (searchkey args) in
  let search_info := search_info_of args search_creds in
  when (negb (remove args) && negb (removeall args))
       (await Msetup (setup strategy) search_info) ;;
  await Mrun (run strategy) search_info.

(** The calls [main] records once the [SearchInfo] [si] is built, case
    by case. *)
Definition main_trace (strategy : Strategy W) (args : Args) (si : SearchInfo)
    (w : W) : list call :=
  let run_trace (w1 : W) :=
    Enter Mrun si ::
    match run strategy si w1 with
    | (Returned _, _) => [Leave Mrun]
    | _ => []
    end in
  if negb (remove args) && negb (removeall args) then
    match setup strategy si w with
    | (Returned _, w1) => Enter Msetup si :: Leave Msetup :: run_trace w1
    | _ => [Enter Msetup si]
    end
  else run_trace w.

(** The body under [if __name__ == "__main__"], after [parse_args]:
    [strategy_of] is the class [FileStrategy], which turns the record
    of constructor arguments into an object with [setup] and [run]. *)
Variable strategy_of : FileStrategy -> Strategy W.

Definition script (args : Args) : St (process W) unit :=
  print (Repr args) ;;
  let* file_strategy := setup_file_strategy args in
  main (strategy_of file_strategy) args.

End Script.

(** ** The ingestion pipeline behind [FileStrategy] *)

(** Modelled from the spec: the document type of [prepdocslib], which is
    not in the sources; section 3 gives a document an identity, a byte
    stream and optional per-page renderings. *)
Record SourceDocument := {
  identity : string;
  content : list Byte.byte;
  renderings : option (list (list Byte.byte))
}.

(** Modelled from the spec: the page type of [prepdocslib.pdfparser]
    (missing): a 1-based ordinal, the extracted text, optional layout. *)
Record ParsedPage := {
  page_ordinal : nat;
  page_text : string;
  layout : option string
}.

(** Modelled from the spec: the index schema that [setup] ensures, kept
    by the search service (missing): the analyzer and the optional
    dimensionality of the embedding field. *)
Record IndexSchema := {
  analyzer : string;
  vector_dimensions : option nat
}.

#[global] Instance IndexSchema_eq_dec : EqDecision IndexSchema.
Proof. solve_decision. Defined.

(** Modelled from the spec: the per-document result of the run summary
    of section 7 (the reporting code is missing). *)
Inductive doc_status :=
| Processed
| Skipped (e : error)
| Failed (e : error).

Section Pipeline.

(** Embedding vectors; their numeric content plays no role here. *)
Context {Vector : Type}.

(** Modelled from the spec: [Section] of [prepdocslib] (missing), with
    the fields of section 3. *)
Record Section_ := {
  owner : string;
  ordinal : nat;
  text : string;
  section_category : option string;
  section_acl : option string;
  section_embedding : option Vector
}.

(** Modelled from the spec: the record the index keeps for one section
    (the search manager of [prepdocslib] is missing); its key, document
    identity and section ordinal, is the key of the map in [World]. *)
Record SearchIndexEntry := {
  entry_content : string;
  embedding : option Vector;
  entry_category : option string;
  access_control : option string;
  source : string
}.

(** Modelled from the spec: the network calls to the collaborators of
    section 4, whose clients are missing from the sources. *)
Inductive NetCall :=
| EnsureSchema (cfg : IndexSchema)
| Parse (doc : string)
| ComputeOne (t : string)
| ComputeBatch (ts : list string)
| Upload (doc : string)
| UploadPageRenderings (doc : string)
| Upsert (es : list (string * nat * SearchIndexEntry))
| DeleteForSource (path : string)
| DeleteAllArtifacts
| DeleteBySource (path : string)
| DeleteAllEntries.

(** Modelled from the spec: the state the missing services keep.  The
    artifact store (original bytes and page renderings, keyed by
    document identity), the index (entries keyed by document identity
    and section ordinal, and its schema), the calls issued so far and
    the run summary shown to the user. *)
Record World := {
  originals : gmap string (list Byte.byte);
  page_renderings : gmap string (list (list Byte.byte));
  entries : gmap (string * nat) SearchIndexEntry;
  schema : option IndexSchema;
  network : list NetCall;
  summary : list (string * doc_status)
}.

(** Modelled from the spec: the contracts of the Source Lister, Content
    Parser, Text Splitter and Embedding Provider (sections 4.2 to 4.5),
    whose implementations in [prepdocslib] are missing, as the
    capabilities the orchestrator consumes. *)
Record Collaborators := {
  list_source : LocalListFileStrategy -> list SourceDocument;
  parse : DocumentAnalysisPdfParser -> list Byte.byte -> option (list ParsedPage);
  split : TextSplitter -> list ParsedPage -> list string;
  access_control_of : SourceDocument -> option string;
  supportsBatch : AzureOpenAIEmbeddingService -> bool;
  dimensions : AzureOpenAIEmbeddingService -> nat;
  computeOne : AzureOpenAIEmbeddingService -> string -> option Vector;
  computeBatch : AzureOpenAIEmbeddingService -> list string -> option (list Vector)
}.

Variable env : Collaborators.

(** Modelled from the spec: issuing one network call (recorded in the
    world; the clients are missing). *)
Definition net (c : NetCall) : St World unit :=
  fun w => (Returned tt,
    {| originals := originals w; page_renderings := page_renderings w;
       entries := entries w; schema := schema w;
       network := network w ++ [c]; summary := summary w |}).

(** Modelled from the spec: one line of the run summary of section 7
    (reporting code missing). *)
Definition report (doc : string) (st : doc_status) (w : World) : World :=
  {| originals := originals w; page_renderings := page_renderings w;
     entries := entries w; schema := schema w;
     network := network w; summary := summary w ++ [(doc, st)] |}.

(** *** Artifact Store *)

(** Modelled from the spec: [upload] of the Artifact Store (section 4.6;
    [BlobManager] is missing): stores the original bytes under the
    document identity. *)
Definition upload (doc : SourceDocument) : St World unit :=
  net (Upload (identity doc)) ;;
  fun w => (Returned tt,
    {| originals := <[identity doc := content doc]> (originals w);
       page_renderings := page_renderings w;
       entries := entries w; schema := schema w;
       network := network w; summary := summary w |}).

(** Modelled from the spec: [uploadPageRenderings] of the Artifact Store
    (section 4.6; [BlobManager] is missing). *)
Definition uploadPageRenderings (doc : SourceDocument) : St World unit :=
  net (UploadPageRenderings (identity doc)) ;;
  fun w => (Returned tt,
    {| originals := originals w;
       page_renderings :=
         <[identity doc := default [] (renderings doc)]> (page_renderings w);
       entries := entries w; schema := schema w;
       network := network w; summary := summary w |}).

(** Modelled from the spec: [deleteForSource] of the Artifact Store
    (section 4.6; [BlobManager] is missing): exact match on identity. *)
Definition deleteForSource (path : string) : St World unit :=
  net (DeleteForSource path) ;;
  fun w => (Returned tt,
    {| originals := delete path (originals w);
       page_renderings := delete path (page_renderings w);
       entries := entries w; schema := schema w;
       network := network w; summary := summary w |}).

(** Modelled from the spec: [deleteAll] of the Artifact Store (section
    4.6; [BlobManager] is missing): unconditional. *)
Definition deleteAllArtifacts : St World unit :=
  net DeleteAllArtifacts ;;
  fun w => (Returned tt,
    {| originals := ∅; page_renderings := ∅;
       entries := entries w; schema := schema w;
       network := network w; summary := summary w |}).

(** *** Index Client *)

(** Modelled from the spec: [ensureSchema] of the Index Client (section
    4.7, missing): creates the schema when there is none, accepts an
    equal one, and fails with a configuration error on a conflict. *)
Definition ensureSchema (cfg : IndexSchema) : St World unit :=
  net (EnsureSchema cfg) ;;
  fun w =>
    match schema w with
    | None => (Returned tt,
        {| originals := originals w; page_renderings := page_renderings w;
           entries := entries w; schema := Some cfg;
           network := network w; summary := summary w |})
    | Some old =>
        if decide (old = cfg) then (Returned tt, w)
        else (Raised ConfigurationError, w)
    end.

(** Modelled from the spec: the effect of [upsert] on the index (section
    4.7, missing): an entry with a known id replaces the prior one. *)
Definition upsert_all (es : list (string * nat * SearchIndexEntry))
    (m : gmap (string * nat) SearchIndexEntry) : gmap (string * nat) SearchIndexEntry :=
  foldl (fun acc kv => <[kv.1 := kv.2]> acc) m es.

(** Modelled from the spec: [upsert] of the Index Client (section 4.7,
    missing). *)
Definition upsert (es : list (string * nat * SearchIndexEntry)) : St World unit :=
  net (Upsert es) ;;
  fun w => (Returned tt,
    {| originals := originals w; page_renderings := page_renderings w;
       entries := upsert_all es (entries w); schema := schema w;
       network := network w; summary := summary w |}).

(** Modelled from the spec: [deleteBySource] of the Index Client
    (section 4.7, missing): deletes every entry whose source reference
    equals the path. *)
Definition deleteBySource (path : string) : St World unit :=
  net (DeleteBySource path) ;;
  fun w => (Returned tt,
    {| originals := originals w; page_renderings := page_renderings w;
       entries := filter (fun kv => source kv.2 ≠ path) (entries w);
       schema := schema w;
       network := network w; summary := summary w |}).

(** Modelled from the spec: [deleteAll] of the Index Client (section
    4.7, missing). *)
Definition deleteAllEntries : St World unit :=
  net DeleteAllEntries ;;
  fun w => (Returned tt,
    {| originals := originals w; page_renderings := page_renderings w;
       entries := ∅; schema := schema w;
       network := network w; summary := summary w |}).

(** *** Embedding batching policy *)

(** Modelled from the spec: the batching policy of section 4.1 when
    batching is unavailable or disabled (the embedding service of
    [prepdocslib.embeddings] is missing): one section at a time. *)
Fixpoint compute_each (svc : AzureOpenAIEmbeddingService) (texts : list string)
    : St World (list Vector) :=
  match texts with
  | [] => ret []
  | t :: ts =>
      net (ComputeOne t) ;;
      match computeOne env svc t with
      | None => raise EmbeddingError
      | Some v => let* vs := compute_each svc ts in ret (v :: vs)
      end
  end.

(** Modelled from the spec: the batching policy of section 4.1 (the
    embedding service of [prepdocslib.embeddings] is missing): all
    sections of the document together when the provider supports batches
    and batching is not disabled, else one at a time. *)
Definition compute_vectors (svc : AzureOpenAIEmbeddingService) (texts : list string)
    : St World (list Vector) :=
  if supportsBatch env svc && negb (disable_batch svc) then
    net (ComputeBatch texts) ;;
    match computeBatch env svc texts with
    | Some vs =>
        if (length vs =? length texts)%nat then ret vs else raise EmbeddingError
    | None => raise EmbeddingError
    end
  else compute_each svc texts.

(** Modelled from the spec: the optional embedding step of Add (section
    4.1; [FileStrategy.run] is missing): the orchestrator branches on the
    presence of the embedding service. *)
Definition embed (fs : FileStrategy) (texts : list string)
    : St World (list (option Vector)) :=
  match embeddings fs with
  | None => ret ((fun _ => None) <$> texts)
  | Some svc => let* vs := compute_vectors svc texts in ret (Some <$> vs)
  end.

(** *** Orchestrator *)

(** Modelled from the spec: the sections of one document (section 3;
    [Section] and its construction are missing), ordinals assigned in
    scan order. *)
Definition sections_of (fs : FileStrategy) (doc : SourceDocument)
    (texts : list string) (vecs : list (option Vector)) : list Section_ :=
  imap (fun i tv =>
          {| owner := identity doc; ordinal := i; text := tv.1;
             section_category := fs_category fs;
             section_acl := if use_acls fs then access_control_of env doc else None;
             section_embedding := tv.2 |})
       (zip texts vecs).

(** Modelled from the spec: the persisted form of a section (section 3,
    missing from the sources), with the deterministic id made of the
    document identity and the ordinal. *)
Definition entry_of (s : Section_) : string * nat * SearchIndexEntry :=
  ((owner s, ordinal s),
   {| entry_content := text s; embedding := section_embedding s;
      entry_category := section_category s; access_control := section_acl s;
      source := owner s |}).

(** Modelled from the spec: the schema required by the current run
    (section 4.1; [FileStrategy.setup] is missing). *)
Definition required_schema (fs : FileStrategy) : IndexSchema :=
  {| analyzer := search_analyzer_name fs;
     vector_dimensions := dimensions env <$> embeddings fs |}.

(** Modelled from the spec: [FileStrategy.setup] (missing), section
    4.1. *)
Definition fs_setup (fs : FileStrategy) (si : SearchInfo) : St World unit :=
  ensureSchema (required_schema fs).

(** Modelled from the spec: the Add pipeline for one document of
    [FileStrategy.run] (missing), section 4.1: parse, split, compute
    vectors if embeddings are enabled, upload the original bytes (and the
    page renderings in access-control mode), upsert one entry per
    section. *)
Definition add_document (fs : FileStrategy) (doc : SourceDocument) : St World unit :=
  net (Parse (identity doc)) ;;
  let* pages :=
    match parse env (pdf_parser fs) (content doc) with
    | Some pages => ret pages
    | None => raise ParseError
    end in
  let texts := split env (text_splitter fs) pages in
  let* vecs := embed fs texts in
  let sections := sections_of fs doc texts vecs in
  upload doc ;;
  when (use_acls fs) (uploadPageRenderings doc) ;;
  upsert (entry_of <$> sections).

(** Modelled from the spec: the document boundary of section 7
    ([FileStrategy.run] is missing).  Errors of one document are caught
    there and recorded; the run goes on with the next document. *)
Definition add_one (fs : FileStrategy) (doc : SourceDocument) : St World unit :=
  fun w =>
    match add_document fs doc w with
    | (Returned tt, w') => (Returned tt, report (identity doc) Processed w')
    | (Raised ParseError, w') =>
        (Returned tt, report (identity doc) (Skipped ParseError) w')
    | (Raised e, w') => (Returned tt, report (identity doc) (Failed e) w')
    | (SystemExit c, w') => (SystemExit c, w')
    end.

(** Modelled from the spec: the loop over the documents of the Source
    Lister ([FileStrategy.run] is missing), one document after the
    other. *)
Fixpoint for_each {A} (f : A -> St World unit) (l : list A) : St World unit :=
  match l with
  | [] => ret tt
  | x :: xs => f x ;; for_each f xs
  end.

(** Modelled from the spec: [FileStrategy.run] (missing), section 4.1:
    dispatch on the action.  Remove works on the path given and does not
    consult the Source Lister (section 2); RemoveAll bypasses the path. *)
Definition fs_run (fs : FileStrategy) (si : SearchInfo) : St World unit :=
  match document_action fs with
  | Add => for_each (add_one fs) (list_source env (list_file_strategy fs))
  | Remove =>
      match path_pattern (list_file_strategy fs) with
      | Some path => deleteForSource path ;; deleteBySource path
      | None => ret tt
      end
  | RemoveAll => deleteAllArtifacts ;; deleteAllEntries
  end.

(** Modelled from the spec: the class [FileStrategy] (missing) as a
    [Strategy]. *)
Definition FileStrategy_strategy (fs : FileStrategy) : Strategy World :=
  {| setup := fs_setup fs; run := fs_run fs |}.

(** *** What a run persists, as functions of the documents alone *)

Definition vectors_of (svc : AzureOpenAIEmbeddingService) (texts : list string)
    : option (list Vector) :=
  if supportsBatch env svc && negb (disable_batch svc) then
    match computeBatch env svc texts with
    | Some vs => if (length vs =? length texts)%nat then Some vs else None
    | None => None
    end
  else mapM (computeOne env svc) texts.

Definition embedded (fs : FileStrategy) (texts : list string)
    : option (list (option Vector)) :=
  match embeddings fs with
  | None => Some ((fun _ => None) <$> texts)
  | Some svc =>
      match vectors_of svc texts with
      | Some vs => Some (Some <$> vs)
      | None => None
      end
  end.

(** The entries one document contributes, when its parsing and
    embedding succeed. *)
Definition doc_entries (fs : FileStrategy) (doc : SourceDocument)
    : option (list (string * nat * SearchIndexEntry)) :=
  match parse env (pdf_parser fs) (content doc) with
  | None => None
  | Some pages =>
      let texts := split env (text_splitter fs) pages in
      match embedded fs texts with
      | None => None
      | Some vecs => Some (entry_of <$> sections_of fs doc texts vecs)
      end
  end.

(** The persisted part of the world: artifact store and index. *)
Definition persisted (w : World)
    : gmap string (list Byte.byte) * gmap string (list (list Byte.byte))
      * gmap (string * nat) SearchIndexEntry :=
  (originals w, page_renderings w, entries w).

Definition doc_effect (fs : FileStrategy) (doc : SourceDocument)
    (s : gmap string (list Byte.byte) * gmap string (list (list Byte.byte))
         * gmap (string * nat) SearchIndexEntry)
    : gmap string (list Byte.byte) * gmap string (list (list Byte.byte))
      * gmap (string * nat) SearchIndexEntry :=
  match doc_entries fs doc with
  | None => s
  | Some es =>
      (<[identity doc := content doc]> s.1.1,
       if use_acls fs
       then <[identity doc := default [] (renderings doc)]> s.1.2
       else s.1.2,
       upsert_all es s.2)
  end.

Definition log_calls (cs : list NetCall) (w : World) : World :=
  {| originals := originals w; page_renderings := page_renderings w;
     entries := entries w; schema := schema w;
     network := network w ++ cs; summary := summary w |}.

Definition is_compute (c : NetCall) : Prop :=
  match c with
  | ComputeOne _ | ComputeBatch _ => True
  | _ => False
  end.

(** The calls one document causes, given the calls [cs] made to the
    Embedding Provider for it. *)
Definition doc_calls (fs : FileStrategy) (doc : SourceDocument)
    (cs : list NetCall) : list NetCall :=
  Parse (identity doc) :: cs ++
    match doc_entries fs doc with
    | Some es =>
        Upload (identity doc)
        :: (if use_acls fs then [UploadPageRenderings (identity doc)] else [])
        ++ [Upsert es]
    | None => []
    end.

(** Calls that involve an embedding vector: a call of the Embedding
    Provider, or an upsert of an entry with an embedding field. *)
Definition vector_free (c : NetCall) : Prop :=
  match c with
  | ComputeOne _ | ComputeBatch _ => False
  | Upsert es => Forall (fun kv => embedding kv.2 = None) es
  | _ => True
  end.

End Pipeline.

Arguments Section_ Vector : clear implicits.
Arguments SearchIndexEntry Vector : clear implicits.
Arguments NetCall Vector : clear implicits.
Arguments World Vector : clear implicits.
Arguments Collaborators Vector : clear implicits.

(** ** Updating the namespace *)

Definition set_novectors (b : bool) (a : Args) : Args :=
  {| files := files a; useacls := useacls a; storageaccount := storageaccount a;
     category := category a; container := container a; storagekey := storagekey a;
     tenantid := tenantid a; searchservice := searchservice a; index := index a;
     searchkey := searchkey a; searchanalyzername := searchanalyzername a;
     openaihost := openaihost a; openaiservice := openaiservice a;
     openaideployment := openaideployment a; openaimodelname := openaimodelname a;
     novectors := b; disablebatchvectors := disablebatchvectors a;
     remove := remove a; removeall := removeall a;
     formrecognizerservice := formrecognizerservice a;
     formrecognizerkey := formrecognizerkey a; verbose := verbose a |}.

(** The command line of the epilog's example, with the defaults of the
    parser, the two keys read from the environment, and the options the
    properties below depend on left open. *)
Definition example_args_with (service : option string) (host : string)
    (no_vectors acls rm rm_all : bool) : Args :=
  {| files := Some "data/*"; useacls := acls;
     storageaccount := "myaccount"; category := None;
     container := "mycontainer"; storagekey := None; tenantid := None;
     searchservice := Some "mysearch"; index := Some "myindex";
     searchkey := Some "search-admin-key"; searchanalyzername := "en.microsoft";
     openaihost := host; openaiservice := "DTFS-DocumentChat-OpenAI-Sweden";
     openaideployment := "ada2"; openaimodelname := "text-embedding-ada-002";
     novectors := no_vectors; disablebatchvectors := false;
     remove := rm; removeall := rm_all;
     formrecognizerservice := service;
     formrecognizerkey := Some "form-recognizer-key"; verbose := true |}.

Definition example_args : Args :=
  example_args_with (Some "dtfs-document-intelligence") "azure" false false false false.

Definition empty_env : string -> option string := fun _ => None.

(** A strategy that does nothing, on a world without content. *)
Definition idle_strategy : Strategy unit :=
  {| setup := fun _ => ret tt; run := fun _ => ret tt |}.

Definition idle_process : process unit :=
  {| world := tt; stdout := []; calls := [] |}.

(** ** A small corpus *)

Definition example_pages : list ParsedPage :=
  [ {| page_ordinal := 1; page_text := "Leave policy. "; layout := None |};
    {| page_ordinal := 2; page_text := "Travel policy."; layout := None |} ].

Definition example_document : SourceDocument :=
  {| identity := "policy.doc";
     content := [Byte.x50; Byte.x44; Byte.x46];
     renderings := Some [[Byte.x01]; [Byte.x02]] |}.

(** One document of two pages, one section per page, vectors of two
    components. *)
Definition example_env : Collaborators (list Z) :=
  {| list_source := fun _ => [example_document];
     parse := fun _ _ => Some example_pages;
     split := fun _ pages => page_text <$> pages;
     access_control_of := fun _ => None;
     supportsBatch := fun _ => true;
     dimensions := fun _ => 2%nat;
     computeOne := fun _ t => Some [Z.of_nat (String.length t); 0%Z];
     computeBatch := fun _ ts =>
       Some ((fun t => [Z.of_nat (String.length t); 0%Z]) <$> ts) |}.

Definition example_strategy (action : DocumentAction) (path : option string)
    : FileStrategy :=
  {| list_file_strategy := {| path_pattern := path; lf_verbose := false |};
     blob_manager :=
       {| bm_endpoint := "https://myaccount.blob.core.windows.net";
          bm_container := "mycontainer"; bm_credential := None;
          bm_verbose := false |};
     pdf_parser :=
       {| pp_endpoint := "https://dtfs-document-intelligence.cognitiveservices.azure.com/";
          pp_credential := {| key := "form-recognizer-key" |};
          pp_verbose := false |};
     text_splitter := TextSplitter_default;
     document_action := action;
     embeddings := None;
     search_analyzer_name := "en.microsoft";
     use_acls := false;
     fs_category := None |}.

Definition example_entry (src txt : string) : SearchIndexEntry (list Z) :=
  {| entry_content := txt; embedding := None; entry_category := None;
     access_control := None; source := src |}.

(** An index and a store that hold two documents. *)
Definition example_world : World (list Z) :=
  {| originals := {[ "old.doc" := [Byte.x01]; "new.doc" := [Byte.x02] ]};
     page_renderings := ∅;
     entries := {[ ("old.doc", 0%nat) := example_entry "old.doc" "first";
                   ("old.doc", 1%nat) := example_entry "old.doc" "second";
                   ("new.doc", 0%nat) := example_entry "new.doc" "third" ]};
     schema := None;
     network := [];
     summary := [] |}.

Definition example_search_info : SearchInfo :=
  search_info_of example_args {| key := "search-admin-key" |}.

(** ** is_key_empty *)

Section KeyCheck.

(** The character class [str.strip()] removes: the whitespace characters
    ([str.isspace]). *)
Variable isspace : Ascii.ascii -> bool.

Fixpoint lstrip (s : string) : string :=
  match s with
  | EmptyString => EmptyString
  | String c s' => if isspace c then lstrip s' else s
  end.

Fixpoint rstrip (s : string) : string :=
  match s with
  | EmptyString => EmptyString
  | String c s' =>
      match rstrip s' with
      | EmptyString => if isspace c then EmptyString else String c EmptyString
      | r => String c r
      end
  end.

(** [key.strip()]: whitespace removed at both ends. *)
Definition strip (s : string) : string := rstrip (lstrip s).

Definition is_key_empty (key : option string) : bool :=
  match key with
  | None => true
  | Some k => (String.length (strip k) =? 0)%nat
  end.

End KeyCheck.

(** [str.isspace] on the code points below 256, a character standing for
    its code point: tab to carriage return, the four separators 0x1C to
    0x1F, the space, the next-line control 0x85 and the no-break space
    0xA0. *)
Definition isspace_latin1 (c : Ascii.ascii) : bool :=
  let n := Ascii.N_of_ascii c in
  ((9 <=? n)%N && (n <=? 13)%N) || ((28 <=? n)%N && (n <=? 32)%N)
  || (n =? 133)%N || (n =? 160)%N.

(** ** The command line *)

(** One occurrence of an optional argument declared with [add_argument]:
    a [store_true] flag, or an option with its value. *)
Inductive option_given :=
| opt_useacls
| opt_storageaccount (v : string)
| opt_category (v : string)
| opt_container (v : string)
| opt_storagekey (v : string)
| opt_tenantid (v : string)
| opt_searchservice (v : string)
| opt_index (v : string)
| opt_searchkey (v : string)
| opt_searchanalyzername (v : string)
| opt_openaihost (v : string)
| opt_openaiservice (v : string)
| opt_openaideployment (v : string)
| opt_openaimodelname (v : string)
| opt_novectors
| opt_disablebatchvectors
| opt_remove
| opt_removeall
| opt_formrecognizerservice (v : string)
| opt_formrecognizerkey (v : string)
| opt_verbose.

#[global] Instance option_given_eq_dec : EqDecision option_given.
Proof. solve_decision. Defined.

(** A command line that the parser accepts: at most one positional
    argument ([files], nargs="?") and the optional arguments in the order
    they are written. *)
Record command_line := {
  cl_files : option string;
  cl_options : list option_given
}.

(** The namespace before any argument is read: the [default] of each
    [add_argument], [False] for the flags, [None] where no default is
    given. *)
Definition defaults (getenv : string -> option string) : Args :=
  {| files := None;
     useacls := false;
     storageaccount := "dtfsdocumentchatstorage";
     category := None;
     container := "devcontent";
     storagekey := getenv "BLOB_STORAGE_KEY";
     tenantid := None;
     searchservice := getenv "AZURE_SEARCH_SERVICE";
     index := getenv "AZURE_SEARCH_INDEX";
     searchkey := getenv "AZURE_COGNITIVE_SEARCH_ADMIN_KEY";
     searchanalyzername := "en.microsoft";
     openaihost := "azure";
     openaiservice := "DTFS-DocumentChat-OpenAI-Sweden";
     openaideployment := "ada2";
     openaimodelname := "text-embedding-ada-002";
     novectors := false;
     disablebatchvectors := false;
     remove := false;
     removeall := false;
     formrecognizerservice := Some "dtfs-document-intelligence";
     formrecognizerkey := getenv "AZURE_DOCUMENT_INTELLIGENCE_KEY";
     verbose := false |}.

(** The action of one optional argument on the namespace: a flag stores
    [True], an option stores its value in its own attribute. *)
Definition store (o : option_given) (ns : Args) : Args :=
  {| files := files ns;
     useacls := match o with opt_useacls => true | _ => useacls ns end;
     storageaccount :=
       match o with opt_storageaccount v => v | _ => storageaccount ns end;
     category := match o with opt_category v => Some v | _ => category ns end;
     container := match o with opt_container v => v | _ => container ns end;
     storagekey := match o with opt_storagekey v => Some v | _ => storagekey ns end;
     tenantid := match o with opt_tenantid v => Some v | _ => tenantid ns end;
     searchservice :=
       match o with opt_searchservice v => Some v | _ => searchservice ns end;
     index := match o with opt_index v => Some v | _ => index ns end;
     searchkey := match o with opt_searchkey v => Some v | _ => searchkey ns end;
     searchanalyzername :=
       match o with opt_searchanalyzername v => v | _ => searchanalyzername ns end;
     openaihost := match o with opt_openaihost v => v | _ => openaihost ns end;
     openaiservice :=
       match o with opt_openaiservice v => v | _ => openaiservice ns end;
     openaideployment :=
       match o with opt_openaideployment v => v | _ => openaideployment ns end;
     openaimodelname :=
       match o with opt_openaimodelname v => v | _ => openaimodelname ns end;
     novectors := match o with opt_novectors => true | _ => novectors ns end;
     disablebatchvectors :=
       match o with opt_disablebatchvectors => true | _ => disablebatchvectors ns end;
     remove := match o with opt_remove => true | _ => remove ns end;
     removeall := match o with opt_removeall => true | _ => removeall ns end;
     formrecognizerservice :=
       match o with
       | opt_formrecognizerservice v => Some v
       | _ => formrecognizerservice ns
       end;
     formrecognizerkey :=
       match o with opt_formrecognizerkey v => Some v | _ => formrecognizerkey ns end;
     verbose := match o with opt_verbose => true | _ => verbose ns end |}.

Definition set_files (f : option string) (a : Args) : Args :=
  {| files := f; useacls := useacls a; storageaccount := storageaccount a;
     category := category a; container := container a; storagekey := storagekey a;
     tenantid := tenantid a; searchservice := searchservice a; index := index a;
     searchkey := searchkey a; searchanalyzername := searchanalyzername a;
     openaihost := openaihost a; openaiservice := openaiservice a;
     openaideployment := openaideployment a; openaimodelname := openaimodelname a;
     novectors := novectors a; disablebatchvectors := disablebatchvectors a;
     remove := remove a; removeall := removeall a;
     formrecognizerservice := formrecognizerservice a;
     formrecognizerkey := formrecognizerkey a; verbose := verbose a |}.

(** [parser.parse_args()] on an accepted command line. *)
Definition parse_args (getenv : string -> option string) (cl : command_line) : Args :=
  foldl (fun ns o => store o ns) (set_files (cl_files cl) (defaults getenv))
        (cl_options cl).

Definition set_searchkey (k : option string) (a : Args) : Args :=
  {| files := files a; useacls := useacls a; storageaccount := storageaccount a;
     category := category a; container := container a; storagekey := storagekey a;
     tenantid := tenantid a; searchservice := searchservice a; index := index a;
     searchkey := k; searchanalyzername := searchanalyzername a;
     openaihost := openaihost a; openaiservice := openaiservice a;
     openaideployment := openaideployment a; openaimodelname := openaimodelname a;
     novectors := novectors a; disablebatchvectors := disablebatchvectors a;
     remove := remove a; removeall := removeall a;
     formrecognizerservice := formrecognizerservice a;
     formrecognizerkey := formrecognizerkey a; verbose := verbose a |}.

Definition set_tenantid (t : option string) (a : Args) : Args :=
  {| files := files a; useacls := useacls a; storageaccount := storageaccount a;
     category := category a; container := container a; storagekey := storagekey a;
     tenantid := t; searchservice := searchservice a; index := index a;
     searchkey := searchkey a; searchanalyzername := searchanalyzername a;
     openaihost := openaihost a; openaiservice := openaiservice a;
     openaideployment := openaideployment a; openaimodelname := openaimodelname a;
     novectors := novectors a; disablebatchvectors := disablebatchvectors a;
     remove := remove a; removeall := removeall a;
     formrecognizerservice := formrecognizerservice a;
     formrecognizerkey := formrecognizerkey a; verbose := verbose a |}.

(** The command line of the epilog's example:
    [prepdocs.py '..\data\*' --storageaccount myaccount --container mycontainer
     --searchservice mysearch --index myindex -v]. *)
Definition epilog_command_line : command_line :=
  {| cl_files := Some "..\data\*";
     cl_options := [opt_storageaccount "myaccount"; opt_container "mycontainer";
                    opt_searchservice "mysearch"; opt_index "myindex";
                    opt_verbose] |}.

(** An environment in which every key the script reads is set. *)
Definition full_env : string -> option string := fun name => Some ("value-of-" +:+ name).

(** A strategy whose [setup] fails on a schema conflict. *)
Definition failing_strategy : Strategy unit :=
  {| setup := fun _ => raise ConfigurationError; run := fun _ => ret tt |}.

(** * Properties of the script *)

Section ScriptFacts.

Context {W : Type}.
Variable getenv : string -> option string.

(** [setup_file_strategy] returns when the Form Recognizer service name
    and key are given and, if an embedding service is to be built, the
    environment has OPENAI_API_KEY: it prints its two progress lines,
    leaves the world and the call record as they were, and fills the
    strategy from the namespace. *)
Lemma setup_file_strategy_returns (args : Args) (service fkey : string) :
  formrecognizerservice args = Some service ->
  formrecognizerkey args = Some fkey ->
  novectors args = true \/ openaihost args = "openai"
    \/ is_Some (getenv "OPENAI_API_KEY") ->
  exists fs,
    (forall p : process W,
       setup_file_strategy getenv args p =
         (Returned fs,
          {| world := world p;
             stdout := ((stdout p ++ [Line "Processing files..."])
                        ++ [Line ("Using local files in " +:+ fmt (files args))])%list;
             calls := calls p |}))
    /\ document_action fs =
         (if removeall args then RemoveAll
          else if remove args then Remove else Add)
    /\ embeddings fs =
         (if negb (novectors args) && negb (String.eqb (openaihost args) "openai")
          then match getenv "OPENAI_API_KEY" with
               | Some okey =>
                   Some {| open_ai_service := openaiservice args;
                           open_ai_deployment := openaideployment args;
                           open_ai_model_name := openaimodelname args;
                           es_credential := {| key := okey |};
                           disable_batch := disablebatchvectors args;
                           es_verbose := verbose args |}
               | None => None
               end
          else None)
    /\ use_acls fs = useacls args
    /\ path_pattern (list_file_strategy fs) = files args.
Proof.
  intros Hsvc Hkey Hopen. unfold setup_file_strategy. rewrite Hsvc, Hkey.
  destruct (negb (novectors args) && negb (String.eqb (openaihost args) "openai"))
    eqn:Hcond.
  - destruct (getenv "OPENAI_API_KEY") as [okey|] eqn:Hokey.
    + eexists. split; [intros p; reflexivity|]. simpl. repeat split; reflexivity.
    + exfalso. apply andb_true_iff in Hcond as [Hnov Hhost].
      destruct Hopen as [Hn|[Hh|Hk]].
      * by rewrite Hn in Hnov.
      * rewrite Hh in Hhost. done.
      * by destruct Hk.
  - eexists. split; [intros p; reflexivity|]. simpl. repeat split; reflexivity.
Qed.

(** Conversely, a call that returns had what it needs. *)
Lemma setup_file_strategy_returned_inv (args : Args) (p p' : process W)
    (fs : FileStrategy) :
  setup_file_strategy getenv args p = (Returned fs, p') ->
  (exists service, formrecognizerservice args = Some service)
  /\ (exists fkey, formrecognizerkey args = Some fkey)
  /\ (novectors args = true \/ openaihost args = "openai"
      \/ is_Some (getenv "OPENAI_API_KEY")).
Proof.
  unfold setup_file_strategy.
  destruct (formrecognizerservice args) as [service|]; [|done].
  destruct (formrecognizerkey args) as [fkey|]; [|done].
  intros Hret. split; [by eexists|]. split; [by eexists|].
  destruct (novectors args); [by left|].
  destruct (String.eqb_spec (openaihost args) "openai") as [Heq|Hne];
    [by right; left|].
  destruct (getenv "OPENAI_API_KEY") as [okey|]; [by right; right; eexists|].
  done.
Qed.

(** Without a service name it prints the error and exits with status 1. *)
Lemma setup_file_strategy_exits (args : Args) (p : process W) :
  formrecognizerservice args = None ->
  setup_file_strategy getenv args p =
    (SystemExit 1,
     {| world := world p;
        stdout := (stdout p ++ [Line "Error: Azure Form Recognizer service is not provided. Please provide formrecognizerservice"])%list;
        calls := calls p |}).
Proof.
  intros Hsvc. unfold setup_file_strategy. rewrite Hsvc. reflexivity.
Qed.

(** With a service name it may return or raise, but it does not exit. *)
Lemma setup_file_strategy_no_exit (args : Args) (service : string)
    (p : process W) (code : Z) :
  formrecognizerservice args = Some service ->
  (setup_file_strategy getenv args p).1 ≠ SystemExit code.
Proof.
  intros Hsvc. unfold setup_file_strategy. rewrite Hsvc.
  destruct (formrecognizerkey args) as [fkey|]; [|done].
  destruct (negb (novectors args) && negb (String.eqb (openaihost args) "openai"));
    [|done].
  by destruct (getenv "OPENAI_API_KEY").
Qed.

(** Without a search key [main] raises [TypeError] at once. *)
Lemma main_raises_without_key (strategy : Strategy W) (args : Args)
    (p : process W) :
  searchkey args = None -> main strategy args p = (Raised TypeError, p).
Proof. intros Hkey. unfold main. by rewrite Hkey. Qed.

Lemma main_calls (strategy : Strategy W) (args : Args) (k : string)
    (p : process W) :
  searchkey args = Some k ->
  calls (main strategy args p).2
  = (calls p ++ main_trace strategy args (search_info_of args {| key := k |})
                           (world p))%list.
Proof.
  intros Hkey. unfold main, main_trace. rewrite Hkey.
  unfold AzureKeyCredential_new, when, bind, await, ret.
  set (si := search_info_of args {| key := k |}).
  destruct (negb (remove args) && negb (removeall args)); simpl.
  - destruct (setup strategy si (world p)) as [[[]|c|e] w1]; simpl.
    + destruct (run strategy si w1) as [[[]|c|e] w2]; simpl;
        rewrite <- ?app_assoc; reflexivity.
    + reflexivity.
    + reflexivity.
  - destruct (run strategy si (world p)) as [[[]|c|e] w2]; simpl;
      rewrite <- ?app_assoc; reflexivity.
Qed.

(** Which calls [main] enters, and with which [SearchInfo]. *)
Lemma main_trace_enter (strategy : Strategy W) (args : Args) (si : SearchInfo)
    (w : W) :
  ((exists si', Enter Msetup si' ∈ main_trace strategy args si w)
   <-> remove args = false /\ removeall args = false)
  /\ (forall m si', Enter m si' ∈ main_trace strategy args si w -> si' = si).
Proof.
  unfold main_trace.
  destruct (remove args), (removeall args); simpl.
  1-3: destruct (run strategy si w) as [[[]|c|e] w2];
    (split; [split; [intros [si' Hin]|intros [? ?]; discriminate]
            |intros m si' Hin]);
    repeat (apply elem_of_cons in Hin as [Hin|Hin]; [by simplify_eq|]);
    by apply elem_of_nil in Hin.
  destruct (setup strategy si w) as [[[]|c|e] w1];
    [destruct (run strategy si w1) as [[[]|c|e] w2]| |].
  all: split; [split; [done|intros _; eexists; apply list_elem_of_here]
              |intros m si' Hin];
    repeat (apply elem_of_cons in Hin as [Hin|Hin]; [by simplify_eq|]);
    by apply elem_of_nil in Hin.
Qed.

(** What precedes the entry of [run] in the calls of [main]. *)
Lemma main_trace_before_run (strategy : Strategy W) (args : Args)
    (si : SearchInfo) (w : W) (pre post : list call) (si' : SearchInfo) :
  main_trace strategy args si w = (pre ++ Enter Mrun si' :: post)%list ->
  pre = if negb (remove args) && negb (removeall args)
        then [Enter Msetup si; Leave Msetup] else [].
Proof.
  unfold main_trace.
  assert (Hrun : forall w1 pre,
            Enter Mrun si ::
              match run strategy si w1 with
              | (Returned _, _) => [Leave Mrun]
              | _ => []
              end = (pre ++ Enter Mrun si' :: post)%list -> pre = []).
  { intros w1 pre0.
    destruct (run strategy si w1) as [[[]|c|e] w2];
      intros Heq; repeat (destruct pre0 as [|? pre0]; simplify_eq/=; try reflexivity). }
  destruct (negb (remove args) && negb (removeall args)); [|apply Hrun].
  destruct (setup strategy si w) as [[[]|c|e] w1]; intros Heq.
  - destruct pre as [|c1 [|c2 pre]]; simpl in Heq; [discriminate Heq..|].
    injection Heq as <- <- Heq. apply Hrun in Heq. by subst.
  - repeat (destruct pre as [|? pre]; simplify_eq/=).
  - repeat (destruct pre as [|? pre]; simplify_eq/=).
Qed.

(** Outcome and world of [main] when the search key is given. *)
Lemma main_result (strategy : Strategy W) (args : Args) (k : string)
    (p : process W) :
  searchkey args = Some k ->
  let si := search_info_of args {| key := k |} in
  let result := main strategy args p in
  stdout result.2 = stdout p
  /\ if negb (remove args) && negb (removeall args)
     then match setup strategy si (world p) with
          | (Returned _, w1) =>
              result.1 = (run strategy si w1).1
              /\ world result.2 = (run strategy si w1).2
          | (o, w1) => result.1 = o /\ world result.2 = w1
          end
     else result.1 = (run strategy si (world p)).1
          /\ world result.2 = (run strategy si (world p)).2.
Proof.
  intros Hkey si result. subst result. unfold main. rewrite Hkey.
  unfold AzureKeyCredential_new, when, bind, await, ret. fold si.
  destruct (negb (remove args) && negb (removeall args)); simpl.
  - destruct (setup strategy si (world p)) as [[[]|c|e] w1]; simpl.
    + by destruct (run strategy si w1) as [[[]|c|e] w2].
    + done.
    + done.
  - by destruct (run strategy si (world p)) as [[[]|c|e] w2].
Qed.

End ScriptFacts.

(** C1, as stated, fails without a search key: neither [remove] nor
    [removeall] is set, yet [main] raises [TypeError] when it builds the
    credential and enters neither [setup] nor [run]. *)
Lemma main_without_search_key_no_setup :
  let args := set_searchkey None example_args in
  (remove args = false /\ removeall args = false)
  /\ main idle_strategy args idle_process = (Raised TypeError, idle_process)
  /\ ~ (exists si, Enter Msetup si ∈ calls (main idle_strategy args idle_process).2).
Proof.
  split; [by split|]. split; [reflexivity|].
  intros [si Hin]. by apply elem_of_nil in Hin.
Qed.

(** C1, amended: when the search key is a string, whatever the strategy
    and the other arguments, [main] enters [strategy.setup] exactly when
    neither [remove] nor [removeall] is set; whenever [strategy.run] is
    entered it receives the same [SearchInfo], and what was recorded
    before it is the completed call of [setup] (entered, then returned)
    in that case, and nothing otherwise.  [run] is entered, from the
    world [setup] left, unless [setup] was called and did not return;
    [main] then ends as [run] ends, or as the failed [setup] ended. *)
Theorem main_setup_iff_add {W : Type} (strategy : Strategy W) (args : Args)
    (k : string) (p : process W) :
  searchkey args = Some k ->
  let si := search_info_of args {| key := k |} in
  let result := main strategy args p in
  exists trace,
    calls result.2 = (calls p ++ trace)%list
    /\ ((exists si', Enter Msetup si' ∈ trace)
        <-> remove args = false /\ removeall args = false)
    /\ (forall pre post si',
          trace = (pre ++ Enter Mrun si' :: post)%list ->
          si' = si
          /\ pre = if negb (remove args) && negb (removeall args)
                   then [Enter Msetup si; Leave Msetup]
                   else [])
    /\ (if negb (remove args) && negb (removeall args)
        then match setup strategy si (world p) with
             | (Returned _, w1) =>
                 (exists post,
                    trace = Enter Msetup si :: Leave Msetup :: Enter Mrun si :: post)
                 /\ result.1 = (run strategy si w1).1
                 /\ world result.2 = (run strategy si w1).2
             | (o, w1) =>
                 trace = [Enter Msetup si] /\ result.1 = o /\ world result.2 = w1
             end
        else (exists post, trace = Enter Mrun si :: post)
             /\ result.1 = (run strategy si (world p)).1
             /\ world result.2 = (run strategy si (world p)).2).
Proof.
  intros Hkey si result.
  exists (main_trace strategy args si (world p)).
  split; [by apply main_calls|].
  destruct (main_trace_enter strategy args si (world p)) as [Hiff Hsi].
  split; [exact Hiff|]. split.
  - intros pre post si' Heq. split.
    + apply (Hsi Mrun). rewrite Heq. apply elem_of_app. right.
      apply list_elem_of_here.
    + by eapply main_trace_before_run.
  - destruct (main_result strategy args k p Hkey) as [_ Hres].
    fold si in Hres. fold result in Hres. unfold main_trace.
    destruct (negb (remove args) && negb (removeall args)).
    + destruct (setup strategy si (world p)) as [[[]|c|e] w1].
      * split; [by eexists|exact Hres].
      * split; [reflexivity|exact Hres].
      * split; [reflexivity|exact Hres].
    + split; [by eexists|exact Hres].
Qed.

Lemma main_setup_iff_add_witness :
  searchkey example_args = Some "search-admin-key"
  /\ exists trace,
       calls (main idle_strategy example_args idle_process).2 = trace
       /\ ((exists si', Enter Msetup si' ∈ trace)
           <-> remove example_args = false /\ removeall example_args = false)
       /\ (forall pre post si',
             trace = (pre ++ Enter Mrun si' :: post)%list ->
             si' = example_search_info
             /\ pre = [Enter Msetup example_search_info; Leave Msetup])
       /\ ((exists post,
              trace = Enter Msetup example_search_info :: Leave Msetup
                      :: Enter Mrun example_search_info :: post)
           /\ (main idle_strategy example_args idle_process).1 = Returned tt
           /\ world (main idle_strategy example_args idle_process).2 = tt).
Proof.
  split; [reflexivity|].
  apply (main_setup_iff_add idle_strategy example_args "search-admin-key"
           idle_process).
  reflexivity.
Defined.

(** C3: when the Form Recognizer service name is [None],
    [setup_file_strategy] prints the configuration error and exits with
    status 1; the script stops there: the world is as it was before the
    script started and no method of the strategy has been entered. *)
Theorem missing_form_recognizer_aborts {W : Type} (getenv : string -> option string)
    (strategy_of : FileStrategy -> Strategy W) (args : Args) (p : process W) :
  formrecognizerservice args = None ->
  setup_file_strategy getenv args p =
    (SystemExit 1,
     {| world := world p;
        stdout := (stdout p ++ [Line "Error: Azure Form Recognizer service is not provided. Please provide formrecognizerservice"])%list;
        calls := calls p |})
  /\ script getenv strategy_of args p =
    (SystemExit 1,
     {| world := world p;
        stdout := (stdout p ++ [Repr args; Line "Error: Azure Form Recognizer service is not provided. Please provide formrecognizerservice"])%list;
        calls := calls p |}).
Proof.
  intros Hsvc. split; [by apply setup_file_strategy_exits|].
  unfold script, bind at 1, print. unfold bind at 1.
  rewrite setup_file_strategy_exits by done. simpl.
  by rewrite <- app_assoc.
Qed.

Lemma missing_form_recognizer_aborts_witness :
  let args := example_args_with None "azure" false false false false in
  formrecognizerservice args = None
  /\ script empty_env (fun _ => idle_strategy) args idle_process =
      (SystemExit 1,
       {| world := tt;
          stdout := [Repr args; Line "Error: Azure Form Recognizer service is not provided. Please provide formrecognizerservice"];
          calls := [] |}).
Proof.
  split; [reflexivity|].
  apply (missing_form_recognizer_aborts empty_env (fun _ => idle_strategy)
           (example_args_with None "azure" false false false false) idle_process).
  reflexivity.
Defined.

(** C9: when [setup_file_strategy] has what it needs to build a strategy
    (the Form Recognizer service name and key and, if an embedding
    service is to be built, OPENAI_API_KEY), it returns one whose action
    is [RemoveAll] whenever [removeall] is set, also when [remove] is set
    too, and [Add] exactly when neither flag is set. *)
Theorem removeall_takes_precedence {W : Type} (getenv : string -> option string)
    (args : Args) (service fkey : string) (p : process W) :
  formrecognizerservice args = Some service ->
  formrecognizerkey args = Some fkey ->
  novectors args = true \/ openaihost args = "openai"
    \/ is_Some (getenv "OPENAI_API_KEY") ->
  exists fs p',
    setup_file_strategy getenv args p = (Returned fs, p')
    /\ (remove args = true /\ removeall args = true -> document_action fs = RemoveAll)
    /\ (document_action fs = Add <-> remove args = false /\ removeall args = false).
Proof.
  intros Hsvc Hkey Hopen.
  destruct (setup_file_strategy_returns (W := W) getenv args service fkey
              Hsvc Hkey Hopen) as (fs & Hrun & Hact & _).
  exists fs; eexists. split; [apply Hrun|].
  rewrite Hact. destruct (removeall args), (remove args); split;
    try (intros [? ?]); try split; try done; intros [? ?]; done.
Qed.

Lemma removeall_takes_precedence_witness :
  let args := example_args_with (Some "dtfs-document-intelligence") "azure"
                false false true true in
  (formrecognizerservice args = Some "dtfs-document-intelligence"
   /\ formrecognizerkey args = Some "form-recognizer-key"
   /\ (novectors args = true \/ openaihost args = "openai"
       \/ is_Some (full_env "OPENAI_API_KEY")))
  /\ exists fs p',
    setup_file_strategy full_env args idle_process = (Returned fs, p')
    /\ (remove args = true /\ removeall args = true -> document_action fs = RemoveAll)
    /\ (document_action fs = Add <-> remove args = false /\ removeall args = false).
Proof.
  split; [split; [reflexivity|split; [reflexivity|by right; right]]|].
  apply (removeall_takes_precedence full_env
           (example_args_with (Some "dtfs-document-intelligence") "azure"
              false false true true)
           "dtfs-document-intelligence" "form-recognizer-key" idle_process);
    [reflexivity|reflexivity|by right; right].
Defined.

(** C10: when [openaihost] is the text openai (and the Form Recognizer
    service name and key are given), the strategy that
    [setup_file_strategy] builds has no embedding service, whatever
    [novectors] says and whether or not OPENAI_API_KEY is set, and the
    call returns and prints exactly what it does for the same arguments
    with [novectors] set. *)
Theorem openai_host_disables_embeddings {W : Type} (getenv : string -> option string)
    (args : Args) (service fkey : string) (p : process W) :
  openaihost args = "openai" ->
  formrecognizerservice args = Some service ->
  formrecognizerkey args = Some fkey ->
  exists fs p',
    setup_file_strategy getenv args p = (Returned fs, p')
    /\ embeddings fs = None
    /\ setup_file_strategy getenv (set_novectors true args) p = (Returned fs, p').
Proof.
  intros Hhost Hsvc Hkey.
  destruct (setup_file_strategy_returns (W := W) getenv args service fkey
              Hsvc Hkey (or_intror (or_introl Hhost))) as (fs & Hrun & _ & Hemb & _).
  exists fs; eexists. split; [apply Hrun|].
  rewrite Hhost in Hemb. rewrite andb_false_r in Hemb. split; [exact Hemb|].
  rewrite <- Hrun. unfold setup_file_strategy. simpl. rewrite Hsvc, Hkey, Hhost.
  simpl. rewrite andb_false_r. reflexivity.
Qed.

Lemma openai_host_disables_embeddings_witness :
  let args := example_args_with (Some "dtfs-document-intelligence") "openai"
                false false false false in
  (openaihost args = "openai"
   /\ formrecognizerservice args = Some "dtfs-document-intelligence"
   /\ formrecognizerkey args = Some "form-recognizer-key")
  /\ exists fs p',
    setup_file_strategy empty_env args idle_process = (Returned fs, p')
    /\ embeddings fs = None
    /\ setup_file_strategy empty_env (set_novectors true args) idle_process
       = (Returned fs, p').
Proof.
  split; [repeat split; reflexivity|].
  apply (openai_host_disables_embeddings empty_env
           (example_args_with (Some "dtfs-document-intelligence") "openai"
              false false false false)
           "dtfs-document-intelligence" "form-recognizer-key" idle_process);
    reflexivity.
Defined.

(** * Properties of the pipeline *)

Lemma foldl_insert_union `{Countable K} {V : Type} (l : list (K * V)) (m : gmap K V) :
  foldl (fun acc kv => <[kv.1 := kv.2]> acc) m l = list_to_map (reverse l) ∪ m.
Proof.
  induction l as [|kv l IH] using rev_ind.
  - simpl. by rewrite (left_id ∅ (∪)).
  - rewrite foldl_app, reverse_snoc. simpl.
    by rewrite IH, insert_union_l.
Qed.

Lemma foldl_insert_idemp `{Countable K} {V : Type} (l : list (K * V)) (m : gmap K V) :
  foldl (fun acc kv => <[kv.1 := kv.2]> acc)
        (foldl (fun acc kv => <[kv.1 := kv.2]> acc) m l) l
  = foldl (fun acc kv => <[kv.1 := kv.2]> acc) m l.
Proof.
  rewrite !foldl_insert_union.
  by rewrite (assoc (∪)), (idemp (∪)).
Qed.

Section PipelineFacts.

Context {Vector : Type}.
Variable env : Collaborators Vector.

Lemma compute_each_spec (svc : AzureOpenAIEmbeddingService) (texts : list string)
    (w : World Vector) :
  exists cs,
    Forall is_compute cs
    /\ compute_each env svc texts w =
         (match mapM (computeOne env svc) texts with
          | Some vs => Returned vs
          | None => Raised EmbeddingError
          end, log_calls cs w).
Proof.
  unfold log_calls.
  revert w. induction texts as [|t ts IH]; intros w.
  - exists []. split; [constructor|]. simpl. unfold ret.
    rewrite app_nil_r. by destruct w.
  - simpl. unfold bind at 1. unfold net.
    destruct (computeOne env svc t) as [v|] eqn:Hv; simpl.
    + unfold bind at 1.
      match goal with |- context [compute_each env svc ts ?w1] =>
        destruct (IH w1) as (cs & Hcs & ->) end.
      exists (ComputeOne t :: cs). split; [by constructor|].
      simpl. destruct (mapM (computeOne env svc) ts); simpl;
        unfold ret; rewrite <- ?app_assoc; reflexivity.
    + exists [ComputeOne t]. split; [by repeat constructor|]. reflexivity.
Qed.

Lemma compute_vectors_spec (svc : AzureOpenAIEmbeddingService)
    (texts : list string) (w : World Vector) :
  exists cs,
    Forall is_compute cs
    /\ compute_vectors env svc texts w =
         (match vectors_of env svc texts with
          | Some vs => Returned vs
          | None => Raised EmbeddingError
          end, log_calls cs w).
Proof.
  unfold compute_vectors, vectors_of.
  destruct (supportsBatch env svc && negb (disable_batch svc)).
  - exists [ComputeBatch texts]. split; [by repeat constructor|].
    unfold bind, net. simpl.
    destruct (computeBatch env svc texts) as [vs|]; [|reflexivity].
    destruct (length vs =? length texts)%nat; reflexivity.
  - apply compute_each_spec.
Qed.

Lemma embed_spec (fs : FileStrategy) (texts : list string) (w : World Vector) :
  exists cs,
    Forall is_compute cs
    /\ (embeddings fs = None -> cs = [])
    /\ embed env fs texts w =
         (match embedded env fs texts with
          | Some vecs => Returned vecs
          | None => Raised EmbeddingError
          end, log_calls cs w).
Proof.
  unfold embed, embedded.
  destruct (embeddings fs) as [svc|].
  - destruct (compute_vectors_spec svc texts w) as (cs & Hcs & Heq).
    exists cs. split; [done|]. split; [done|].
    unfold bind. rewrite Heq.
    destruct (vectors_of env svc texts); reflexivity.
  - exists []. split; [constructor|]. split; [done|].
    unfold ret, log_calls. rewrite app_nil_r. by destruct w.
Qed.

(** One document: the stores change by [doc_effect], the calls issued
    are [doc_calls], and the document is reported. *)
Lemma add_one_spec (fs : FileStrategy) (doc : SourceDocument) (w : World Vector) :
  exists cs w',
    Forall is_compute cs
    /\ (embeddings fs = None -> cs = [])
    /\ add_one env fs doc w = (Returned tt, w')
    /\ persisted w' = doc_effect env fs doc (persisted w)
    /\ network w' = (network w ++ doc_calls env fs doc cs)%list.
Proof.
  unfold add_one, add_document, doc_effect, doc_calls, doc_entries.
  unfold bind at 1. unfold net at 1. unfold bind at 1.
  destruct (parse env (pdf_parser fs) (content doc)) as [pages|]; simpl.
  - unfold bind at 1.
    match goal with |- context [embed env fs ?ts ?w1] =>
      destruct (embed_spec fs ts w1) as (cs & Hcs & Hnone & ->) end.
    exists cs.
    destruct (embedded env fs (split env (text_splitter fs) pages)) as [vecs|].
    + unfold upload, uploadPageRenderings, upsert, when, bind, net, ret.
      destruct (use_acls fs); simpl.
      * eexists. split; [done|]. split; [done|].
        split; [reflexivity|]. split; [reflexivity|].
        simpl. rewrite <- !app_assoc. reflexivity.
      * eexists. split; [done|]. split; [done|].
        split; [reflexivity|]. split; [reflexivity|].
        simpl. rewrite <- !app_assoc. reflexivity.
    + eexists. split; [done|]. split; [done|]. simpl.
      split; [reflexivity|]. split; [reflexivity|].
      unfold report, log_calls. simpl.
      rewrite app_nil_r, <- app_assoc. reflexivity.
  - exists []. eexists. split; [constructor|]. split; [done|].
    unfold raise. simpl. split; [reflexivity|]. split; reflexivity.
Qed.

(** The whole Add run, by induction on the documents listed. *)
Lemma add_all_spec (fs : FileStrategy) (docs : list SourceDocument)
    (w : World Vector) :
  exists per_doc w',
    for_each (add_one env fs) docs w = (Returned tt, w')
    /\ persisted w' = foldl (fun s d => doc_effect env fs d s) (persisted w) docs
    /\ network w' = (network w ++ concat per_doc)%list
    /\ Forall2 (fun doc cls =>
                  exists cs, Forall is_compute cs
                             /\ (embeddings fs = None -> cs = [])
                             /\ cls = doc_calls env fs doc cs)
               docs per_doc.
Proof.
  revert w. induction docs as [|doc docs IH]; intros w.
  - exists [], w. simpl. rewrite app_nil_r. repeat split; constructor.
  - destruct (add_one_spec fs doc w) as (cs & w1 & Hcs & Hnone & Hone & Hp1 & Hn1).
    destruct (IH w1) as (per_doc & w' & Hrest & Hp & Hn & Hall).
    exists (doc_calls env fs doc cs :: per_doc), w'.
    simpl. unfold bind. rewrite Hone, Hrest.
    split; [reflexivity|]. split; [by rewrite Hp, Hp1|].
    split; [by rewrite Hn, Hn1, <- app_assoc|].
    constructor; [|done]. by exists cs.
Qed.

(** What the documents do to the three stores is a sequence of
    insertions that depends on the documents alone. *)
Lemma doc_effects_insertions (fs : FileStrategy) (docs : list SourceDocument) :
  exists l1 l2 l3, forall s,
    foldl (fun s d => doc_effect env fs d s) s docs =
      (foldl (fun acc kv => <[kv.1 := kv.2]> acc) s.1.1 l1,
       foldl (fun acc kv => <[kv.1 := kv.2]> acc) s.1.2 l2,
       foldl (fun acc kv => <[kv.1 := kv.2]> acc) s.2 l3).
Proof.
  induction docs as [|doc docs (l1 & l2 & l3 & IH)].
  - exists [], [], []. by intros [[? ?] ?].
  - simpl. unfold doc_effect at 2.
    destruct (doc_entries env fs doc) as [es|].
    + destruct (use_acls fs).
      * exists ((identity doc, content doc) :: l1),
               ((identity doc, default [] (renderings doc)) :: l2),
               (es ++ l3)%list.
        intros [[o r] e]. rewrite IH. simpl. unfold upsert_all.
        by rewrite foldl_app.
      * exists ((identity doc, content doc) :: l1), l2, (es ++ l3)%list.
        intros [[o r] e]. rewrite IH. simpl. unfold upsert_all.
        by rewrite foldl_app.
    + exists l1, l2, l3. intros s. by rewrite IH.
Qed.

Lemma doc_effects_idemp (fs : FileStrategy) (docs : list SourceDocument) s :
  foldl (fun s d => doc_effect env fs d s)
        (foldl (fun s d => doc_effect env fs d s) s docs) docs
  = foldl (fun s d => doc_effect env fs d s) s docs.
Proof.
  destruct (doc_effects_insertions fs docs) as (l1 & l2 & l3 & Heq).
  rewrite !Heq. simpl. by rewrite !foldl_insert_idemp.
Qed.

(** Without an embedding service no section gets a vector. *)
Lemma doc_entries_no_embedding (fs : FileStrategy) (doc : SourceDocument) es :
  embeddings fs = None ->
  doc_entries env fs doc = Some es ->
  Forall (fun kv => embedding kv.2 = None) es.
Proof.
  intros Hnone. unfold doc_entries, embedded. rewrite Hnone.
  destruct (parse env (pdf_parser fs) (content doc)) as [pages|]; [|done].
  intros [= <-]. apply Forall_fmap, Forall_forall. intros s Hs.
  unfold sections_of in Hs. apply elem_of_lookup_imap in Hs as (i & tv & -> & Htv).
  simpl. destruct tv as [t v]. apply list_elem_of_lookup_2, elem_of_zip_r in Htv.
  by apply list_elem_of_fmap in Htv as (? & -> & _).
Qed.

Lemma doc_calls_vector_free (fs : FileStrategy) (doc : SourceDocument) :
  embeddings fs = None -> Forall vector_free (doc_calls env fs doc []).
Proof.
  intros Hnone. unfold doc_calls. constructor; [done|]. simpl.
  destruct (doc_entries env fs doc) as [es|] eqn:Hes; [|constructor].
  constructor; [done|]. apply Forall_app. split.
  - destruct (use_acls fs); repeat constructor.
  - constructor; [|constructor]. simpl. by eapply doc_entries_no_embedding.
Qed.

(** A run of a strategy without embedding service never calls the
    Embedding Provider and never upserts an entry with a vector. *)
Lemma fs_run_vector_free (fs : FileStrategy) (si : SearchInfo) (w : World Vector) :
  embeddings fs = None ->
  exists new,
    network (fs_run env fs si w).2 = (network w ++ new)%list
    /\ Forall vector_free new.
Proof.
  intros Hnone. unfold fs_run. destruct (document_action fs).
  - destruct (add_all_spec fs (list_source env (list_file_strategy fs)) w)
      as (per_doc & w' & -> & _ & Hn & Hall).
    exists (concat per_doc). split; [done|].
    apply Forall_concat. clear Hn.
    induction Hall as [|doc cls docs per_doc (cs & _ & Hcs & ->) _ IH];
      constructor; [|done].
    rewrite (Hcs Hnone). by apply doc_calls_vector_free.
  - destruct (path_pattern (list_file_strategy fs)) as [path|].
    + exists [DeleteForSource path; DeleteBySource path]. simpl.
      split; [by rewrite <- app_assoc|]. by repeat constructor.
    + exists []. simpl. split; [by rewrite app_nil_r|]. constructor.
  - exists [DeleteAllArtifacts; DeleteAllEntries]. simpl.
    split; [by rewrite <- app_assoc|]. by repeat constructor.
Qed.

End PipelineFacts.

(** C4: an Add run returns, and a second Add run over the same documents
    leaves the index (ids and entries) and the artifact store exactly as
    the first run left them. *)
Theorem add_twice_same_index {Vector : Type} (env : Collaborators Vector)
    (fs : FileStrategy) (si : SearchInfo) (w : World Vector) :
  document_action fs = Add ->
  let once := fs_run env fs si w in
  let twice := fs_run env fs si once.2 in
  once.1 = Returned tt /\ twice.1 = Returned tt
  /\ entries twice.2 = entries once.2
  /\ originals twice.2 = originals once.2
  /\ page_renderings twice.2 = page_renderings once.2.
Proof.
  intros Hadd. unfold fs_run. rewrite Hadd. simpl.
  set (docs := list_source env (list_file_strategy fs)).
  destruct (add_all_spec env fs docs w) as (c1 & w1 & Hrun1 & Hp1 & _).
  rewrite Hrun1. simpl.
  destruct (add_all_spec env fs docs w1) as (c2 & w2 & Hrun2 & Hp2 & _).
  rewrite Hrun2. simpl.
  rewrite Hp1, doc_effects_idemp, <- Hp1 in Hp2.
  unfold persisted in Hp2. injection Hp2 as Ho Hr He.
  by repeat split.
Qed.

Lemma add_twice_same_index_witness :
  let fs := example_strategy Add (Some "data/*") in
  let once := fs_run example_env fs example_search_info example_world in
  let twice := fs_run example_env fs example_search_info once.2 in
  document_action fs = Add
  /\ (once.1 = Returned tt /\ twice.1 = Returned tt
      /\ entries twice.2 = entries once.2
      /\ originals twice.2 = originals once.2
      /\ page_renderings twice.2 = page_renderings once.2).
Proof.
  split; [reflexivity|].
  apply (add_twice_same_index example_env (example_strategy Add (Some "data/*"))
           example_search_info example_world).
  reflexivity.
Defined.

(** C5: a Remove run with path [path] returns; afterwards the index holds
    exactly the entries it held before whose source reference differs
    from [path], each unchanged, and the artifact store has lost the
    artifacts kept under [path] and no others. *)
Theorem remove_only_given_path {Vector : Type} (env : Collaborators Vector)
    (fs : FileStrategy) (si : SearchInfo) (w : World Vector) (path : string) :
  document_action fs = Remove ->
  path_pattern (list_file_strategy fs) = Some path ->
  let after := fs_run env fs si w in
  after.1 = Returned tt
  /\ (forall id e, entries after.2 !! id = Some e
                   <-> entries w !! id = Some e /\ source e ≠ path)
  /\ (forall d, originals after.2 !! d
                = if decide (d = path) then None else originals w !! d)
  /\ (forall d, page_renderings after.2 !! d
                = if decide (d = path) then None else page_renderings w !! d).
Proof.
  intros Hrm Hpath. unfold fs_run. rewrite Hrm, Hpath. simpl.
  split; [reflexivity|]. split; [|split].
  - intros id e. by rewrite map_lookup_filter_Some.
  - intros d. case_decide as Hd.
    + subst. apply lookup_delete_eq.
    + by apply lookup_delete_ne.
  - intros d. case_decide as Hd.
    + subst. apply lookup_delete_eq.
    + by apply lookup_delete_ne.
Qed.

Lemma remove_only_given_path_witness :
  let fs := example_strategy Remove (Some "old.doc") in
  let after := fs_run example_env fs example_search_info example_world in
  (document_action fs = Remove
   /\ path_pattern (list_file_strategy fs) = Some "old.doc")
  /\ (after.1 = Returned tt
      /\ (forall id e, entries after.2 !! id = Some e
                       <-> entries example_world !! id = Some e
                           /\ source e ≠ "old.doc")
      /\ (forall d, originals after.2 !! d
                    = if decide (d = "old.doc") then None
                      else originals example_world !! d)
      /\ (forall d, page_renderings after.2 !! d
                    = if decide (d = "old.doc") then None
                      else page_renderings example_world !! d)).
Proof.
  split; [split; reflexivity|].
  apply (remove_only_given_path example_env (example_strategy Remove (Some "old.doc"))
           example_search_info example_world "old.doc"); reflexivity.
Defined.

(** C6: a RemoveAll run returns and leaves the index and the artifact
    store empty, whatever they held; a strategy with another path
    pattern (or any other setting) ends in the same world. *)
Theorem removeall_empties_everything {Vector : Type} (env : Collaborators Vector)
    (fs : FileStrategy) (si : SearchInfo) (w : World Vector) :
  document_action fs = RemoveAll ->
  let after := fs_run env fs si w in
  after.1 = Returned tt
  /\ entries after.2 = ∅
  /\ originals after.2 = ∅
  /\ page_renderings after.2 = ∅
  /\ (forall fs', document_action fs' = RemoveAll ->
                  fs_run env fs' si w = fs_run env fs si w).
Proof.
  intros Hall. unfold fs_run. rewrite Hall. simpl.
  repeat split; try reflexivity.
  intros fs' ->. reflexivity.
Qed.

Lemma removeall_empties_everything_witness :
  let fs := example_strategy RemoveAll (Some "old.doc") in
  let after := fs_run example_env fs example_search_info example_world in
  document_action fs = RemoveAll
  /\ (after.1 = Returned tt
      /\ entries after.2 = ∅
      /\ originals after.2 = ∅
      /\ page_renderings after.2 = ∅
      /\ (forall fs', document_action fs' = RemoveAll ->
                      fs_run example_env fs' example_search_info example_world
                      = fs_run example_env fs example_search_info example_world)).
Proof.
  split; [reflexivity|].
  apply (removeall_empties_everything example_env
           (example_strategy RemoveAll (Some "old.doc"))
           example_search_info example_world).
  reflexivity.
Defined.

(** C2: with [novectors] set (and the Form Recognizer service name and
    key given), [setup_file_strategy] builds the strategy with
    [embeddings = None], whether or not OPENAI_API_KEY is set; a run of
    that strategy, over any collaborators and from any world, issues no
    call to the Embedding Provider and upserts no entry with an
    embedding field. *)
Theorem novectors_no_embedding {W : Type} (getenv : string -> option string)
    (args : Args) (service fkey : string) (p : process W) :
  novectors args = true ->
  formrecognizerservice args = Some service ->
  formrecognizerkey args = Some fkey ->
  exists fs p',
    setup_file_strategy getenv args p = (Returned fs, p')
    /\ embeddings fs = None
    /\ forall (Vector : Type) (env : Collaborators Vector) (si : SearchInfo)
              (w : World Vector),
         exists new,
           network (fs_run env fs si w).2 = (network w ++ new)%list
           /\ Forall vector_free new.
Proof.
  intros Hnov Hsvc Hkey.
  destruct (setup_file_strategy_returns (W := W) getenv args service fkey
              Hsvc Hkey (or_introl Hnov)) as (fs & Hrun & _ & Hemb & _).
  rewrite Hnov in Hemb. simpl in Hemb.
  exists fs; eexists. split; [apply Hrun|]. split; [exact Hemb|].
  intros Vector env si w. by apply fs_run_vector_free.
Qed.

Lemma novectors_no_embedding_witness :
  let args := example_args_with (Some "dtfs-document-intelligence") "azure"
                true false false false in
  (novectors args = true
   /\ formrecognizerservice args = Some "dtfs-document-intelligence"
   /\ formrecognizerkey args = Some "form-recognizer-key")
  /\ exists fs p',
    setup_file_strategy empty_env args idle_process = (Returned fs, p')
    /\ embeddings fs = None
    /\ forall (Vector : Type) (env : Collaborators Vector) (si : SearchInfo)
              (w : World Vector),
         exists new,
           network (fs_run env fs si w).2 = (network w ++ new)%list
           /\ Forall vector_free new.
Proof.
  split; [repeat split; reflexivity|].
  apply (novectors_no_embedding empty_env
           (example_args_with (Some "dtfs-document-intelligence") "azure"
              true false false false)
           "dtfs-document-intelligence" "form-recognizer-key" idle_process);
    reflexivity.
Defined.

(** * The models at work on the small corpus *)

Example script_example_calls :
  calls (script full_env (fun _ => idle_strategy) example_args idle_process).2
  = [Enter Msetup example_search_info; Leave Msetup;
     Enter Mrun example_search_info; Leave Mrun].
Proof. reflexivity. Qed.

Example script_remove_calls :
  calls (script full_env (fun _ => idle_strategy)
           (example_args_with (Some "dtfs-document-intelligence") "azure"
              false false true false) idle_process).2
  = [Enter Mrun example_search_info; Leave Mrun].
Proof. reflexivity. Qed.

(** Without OPENAI_API_KEY the embedding credential cannot be built. *)
Example script_without_openai_key :
  script empty_env (fun _ => idle_strategy) example_args idle_process
  = (Raised TypeError,
     {| world := tt; stdout := [Repr example_args]; calls := [] |}).
Proof. reflexivity. Qed.

Example add_example_calls :
  network (fs_run example_env (example_strategy Add (Some "data/*"))
             example_search_info example_world).2
  = [Parse "policy.doc"; Upload "policy.doc";
     Upsert [("policy.doc", 0%nat, example_entry "policy.doc" "Leave policy. ");
             ("policy.doc", 1%nat, example_entry "policy.doc" "Travel policy.")]].
Proof. reflexivity. Qed.

(** * Further properties of the script *)

Section KeyCheckFacts.

Variable isspace : Ascii.ascii -> bool.

Lemma lstrip_empty_iff (s : string) :
  lstrip isspace s = EmptyString
  <-> Forall (fun c => isspace c = true) (String.list_ascii_of_string s).
Proof.
  induction s as [|c s IH]; simpl.
  - split; [constructor|done].
  - destruct (isspace c) eqn:Hc.
    + rewrite IH. split; [by constructor|]. by inversion 1.
    + split; [done|]. inversion 1. congruence.
Qed.

Lemma rstrip_empty_iff (s : string) :
  rstrip isspace s = EmptyString
  <-> Forall (fun c => isspace c = true) (String.list_ascii_of_string s).
Proof.
  induction s as [|c s IH]; simpl.
  - split; [constructor|done].
  - destruct (rstrip isspace s) as [|c' r] eqn:Hr.
    + destruct (isspace c) eqn:Hc.
      * split; [|done]. intros _. constructor; [done|]. by apply IH.
      * split; [done|]. inversion 1. congruence.
    + split; [done|]. inversion 1 as [|? ? _ Hall]. apply IH in Hall. done.
Qed.

(** What [lstrip] leaves is empty or starts with a character that is not
    whitespace. *)
Lemma lstrip_head (s : string) (c : Ascii.ascii) (r : string) :
  lstrip isspace s = String c r -> isspace c = false.
Proof.
  induction s as [|c0 s IH]; simpl; [done|].
  destruct (isspace c0) eqn:Hc0; [exact IH|]. by intros [= <- _].
Qed.

Lemma strip_empty_iff (s : string) :
  strip isspace s = EmptyString
  <-> Forall (fun c => isspace c = true) (String.list_ascii_of_string s).
Proof.
  unfold strip. split.
  - intros Hr. apply lstrip_empty_iff.
    destruct (lstrip isspace s) as [|c r] eqn:Hl; [done|].
    apply lstrip_head in Hl. apply rstrip_empty_iff in Hr.
    inversion Hr. congruence.
  - intros Hall. apply lstrip_empty_iff in Hall. by rewrite Hall.
Qed.

End KeyCheckFacts.

(** X1: [is_key_empty] answers [True] exactly for [None] and for the
    strings made of whitespace only (the empty string among them). *)
Theorem is_key_empty_iff (isspace : Ascii.ascii -> bool) (key : option string) :
  is_key_empty isspace key = true
  <-> key = None
      \/ exists k, key = Some k
                   /\ Forall (fun c => isspace c = true) (String.list_ascii_of_string k).
Proof.
  destruct key as [k|]; simpl.
  - rewrite Nat.eqb_eq. split.
    + intros Hlen. right. exists k. split; [done|].
      apply strip_empty_iff. by destruct (strip isspace k).
    + intros [?|(k' & [= <-] & Hall)]; [done|].
      apply strip_empty_iff in Hall. by rewrite Hall.
  - split; [by left|done].
Qed.

Example is_key_empty_blank : is_key_empty isspace_latin1 (Some "  ") = true.
Proof. reflexivity. Qed.

Example is_key_empty_padded : is_key_empty isspace_latin1 (Some " k3y ") = false.
Proof. reflexivity. Qed.

Example is_key_empty_no_break_space :
  is_key_empty isspace_latin1
    (Some (String (Ascii.ascii_of_N 160) (String (Ascii.ascii_of_N 133) EmptyString)))
  = true.
Proof. reflexivity. Qed.

(** X3: the strategy that [setup_file_strategy] returns has an embedding
    service exactly when [novectors] is not set and [openaihost] differs
    from the text openai (compared as it is written); the service then
    carries the three OpenAI names and the batch switch of the
    arguments, and its key is the value of OPENAI_API_KEY. *)
Theorem embeddings_configured_iff {W : Type} (getenv : string -> option string)
    (args : Args) (p p' : process W) (fs : FileStrategy) :
  setup_file_strategy getenv args p = (Returned fs, p') ->
  (is_Some (embeddings fs) <-> novectors args = false /\ openaihost args ≠ "openai")
  /\ (forall svc, embeddings fs = Some svc ->
        open_ai_service svc = openaiservice args
        /\ open_ai_deployment svc = openaideployment args
        /\ open_ai_model_name svc = openaimodelname args
        /\ getenv "OPENAI_API_KEY" = Some (key (es_credential svc))
        /\ disable_batch svc = disablebatchvectors args).
Proof.
  intros Hret.
  destruct (setup_file_strategy_returned_inv getenv args p p' fs Hret)
    as ([service Hsvc] & [fkey Hkey] & Hopen).
  destruct (setup_file_strategy_returns (W := W) getenv args service fkey
              Hsvc Hkey Hopen) as (fs' & Hret' & _ & Hemb & _).
  rewrite Hret' in Hret. injection Hret as -> _.
  rewrite Hemb. destruct (novectors args); simpl.
  - split; [split; [by intros [? ?]|by intros [? ?]]|done].
  - destruct (String.eqb_spec (openaihost args) "openai") as [Heq|Hne]; simpl.
    + split; [split; [by intros [? ?]|by intros [? ?]]|done].
    + destruct Hopen as [?|[?|[okey Hokey]]]; [done..|].
      rewrite Hokey. split; [split; [done|by eexists]|]. by intros svc [= <-].
Qed.

Lemma embeddings_configured_iff_witness :
  let args := example_args_with (Some "dtfs-document-intelligence") "OpenAI"
                false false false false in
  exists fs p',
    setup_file_strategy full_env args idle_process = (Returned fs, p')
    /\ (is_Some (embeddings fs)
        <-> novectors args = false /\ openaihost args ≠ "openai")
    /\ (forall svc, embeddings fs = Some svc ->
          open_ai_service svc = openaiservice args
          /\ open_ai_deployment svc = openaideployment args
          /\ open_ai_model_name svc = openaimodelname args
          /\ full_env "OPENAI_API_KEY" = Some (key (es_credential svc))
          /\ disable_batch svc = disablebatchvectors args).
Proof.
  eexists. eexists. split; [cbv; reflexivity|].
  eapply (embeddings_configured_iff full_env
            (example_args_with (Some "dtfs-document-intelligence") "OpenAI"
               false false false false) idle_process).
  cbv; reflexivity.
Defined.

(** X4: a missing [files] argument is not rejected: when
    [setup_file_strategy] returns, the lister has no path pattern and
    the second progress line reads Using local files in None. *)
Theorem missing_files_not_rejected {W : Type} (getenv : string -> option string)
    (args : Args) (p p' : process W) (fs : FileStrategy) :
  files args = None ->
  setup_file_strategy getenv args p = (Returned fs, p') ->
  path_pattern (list_file_strategy fs) = None
  /\ stdout p' = (stdout p ++ [Line "Processing files...";
                              Line "Using local files in None"])%list.
Proof.
  intros Hfiles Hret.
  destruct (setup_file_strategy_returned_inv getenv args p p' fs Hret)
    as ([service Hsvc] & [fkey Hkey] & Hopen).
  destruct (setup_file_strategy_returns (W := W) getenv args service fkey
              Hsvc Hkey Hopen) as (fs' & Hret' & _ & _ & _ & Hpat).
  rewrite Hret' in Hret. injection Hret as -> <-.
  rewrite Hpat, Hfiles. split; [done|]. simpl. by rewrite <- app_assoc.
Qed.

Lemma missing_files_not_rejected_witness :
  let args := set_files None example_args in
  files args = None
  /\ exists fs p',
       setup_file_strategy full_env args idle_process = (Returned fs, p')
       /\ path_pattern (list_file_strategy fs) = None
       /\ stdout p' = [Line "Processing files..."; Line "Using local files in None"].
Proof.
  split; [reflexivity|].
  eexists. eexists. split; [cbv; reflexivity|].
  eapply (missing_files_not_rejected full_env (set_files None example_args)
            idle_process); [reflexivity|cbv; reflexivity].
Defined.

(** X5: when the search key is given, neither [remove] nor [removeall]
    is set and [setup] does not return (it raises, or the interpreter
    exits), [main] ends the same way: [run] is not entered, nothing is
    printed, and the world is the one [setup] left. *)
Theorem main_setup_failure_aborts {W : Type} (strategy : Strategy W) (args : Args)
    (k : string) (p : process W) (o : outcome unit) (w1 : W) :
  searchkey args = Some k ->
  remove args = false ->
  removeall args = false ->
  setup strategy (search_info_of args {| key := k |}) (world p) = (o, w1) ->
  o ≠ Returned tt ->
  main strategy args p =
    (o, {| world := w1; stdout := stdout p;
           calls := (calls p ++ [Enter Msetup (search_info_of args {| key := k |})])%list |}).
Proof.
  intros Hkey Hrm Hall Hsetup Hfail.
  unfold main. rewrite Hkey.
  unfold AzureKeyCredential_new, when, bind, await, ret.
  rewrite Hrm, Hall. simpl. rewrite Hsetup.
  destruct o as [[]|c|e]; [done|reflexivity|reflexivity].
Qed.

Lemma main_setup_failure_aborts_witness :
  (searchkey example_args = Some "search-admin-key"
   /\ remove example_args = false /\ removeall example_args = false
   /\ setup failing_strategy example_search_info (world idle_process)
      = (Raised ConfigurationError, tt)
   /\ Raised ConfigurationError ≠ Returned tt)
  /\ main failing_strategy example_args idle_process =
       (Raised ConfigurationError,
        {| world := tt; stdout := [];
           calls := [Enter Msetup example_search_info] |}).
Proof.
  split; [repeat split; done|].
  apply (main_setup_failure_aborts failing_strategy example_args
           "search-admin-key" idle_process (Raised ConfigurationError) tt); done.
Defined.

(** X6: when the search key is given, [main] prints nothing, and when
    [setup] is skipped or returns, [main] ends as [run] ends, in the
    world [run] leaves when started from the world [setup] left (or from
    the initial one). *)
Theorem main_ends_as_run {W : Type} (strategy : Strategy W) (args : Args)
    (k : string) (p : process W) :
  searchkey args = Some k ->
  let si := search_info_of args {| key := k |} in
  let called := negb (remove args) && negb (removeall args) in
  (called = true -> (setup strategy si (world p)).1 = Returned tt) ->
  let w0 := if called then (setup strategy si (world p)).2 else world p in
  (main strategy args p).1 = (run strategy si w0).1
  /\ world (main strategy args p).2 = (run strategy si w0).2
  /\ stdout (main strategy args p).2 = stdout p.
Proof.
  intros Hkey si called Hok w0.
  destruct (main_result strategy args k p Hkey) as [Hout Hres].
  fold si in Hres. subst w0 called.
  destruct (negb (remove args) && negb (removeall args)).
  - specialize (Hok eq_refl).
    destruct (setup strategy si (world p)) as [o w1]. simpl in Hok. subst o.
    simpl. by destruct Hres.
  - by destruct Hres.
Qed.

Lemma main_ends_as_run_witness :
  (searchkey example_args = Some "search-admin-key"
   /\ (negb (remove example_args) && negb (removeall example_args) = true ->
       (setup idle_strategy example_search_info (world idle_process)).1
       = Returned tt))
  /\ ((main idle_strategy example_args idle_process).1
        = (run idle_strategy example_search_info tt).1
      /\ world (main idle_strategy example_args idle_process).2
        = (run idle_strategy example_search_info tt).2
      /\ stdout (main idle_strategy example_args idle_process).2 = []).
Proof.
  split; [split; reflexivity|].
  apply (main_ends_as_run idle_strategy example_args "search-admin-key"
           idle_process); reflexivity.
Defined.

(** X7: when [setup_file_strategy] returns and the search key is given,
    the script records the calls of [main] on the strategy just built,
    and the two readings of the flags agree: [setup] is entered exactly
    when that strategy has the action [Add]; every method entered
    receives the [SearchInfo] made from the same arguments. *)
Theorem script_setup_iff_action_add {W : Type} (getenv : string -> option string)
    (strategy_of : FileStrategy -> Strategy W) (args : Args) (k : string)
    (p p1 : process W) (fs : FileStrategy) :
  setup_file_strategy getenv args p = (Returned fs, p1) ->
  searchkey args = Some k ->
  let si := search_info_of args {| key := k |} in
  exists trace,
    calls (script getenv strategy_of args p).2 = (calls p ++ trace)%list
    /\ trace = main_trace (strategy_of fs) args si (world p)
    /\ ((exists si', Enter Msetup si' ∈ trace) <-> document_action fs = Add)
    /\ (forall m si', Enter m si' ∈ trace -> si' = si).
Proof.
  intros Hret Hkey si.
  destruct (setup_file_strategy_returned_inv getenv args p p1 fs Hret)
    as ([service Hsvc] & [fkey Hfkey] & Hopen).
  destruct (setup_file_strategy_returns (W := W) getenv args service fkey
              Hsvc Hfkey Hopen) as (fs' & Hret' & Hact & _).
  rewrite Hret' in Hret. injection Hret as -> _.
  exists (main_trace (strategy_of fs) args si (world p)).
  split.
  { unfold script, bind at 1, print. unfold bind at 1. rewrite Hret'.
    by rewrite (main_calls _ _ k). }
  split; [reflexivity|].
  destruct (main_trace_enter (strategy_of fs) args si (world p)) as [Hiff Hsi].
  split; [|exact Hsi].
  rewrite Hiff, Hact.
  destruct (removeall args), (remove args); split;
    try done; try (by intros [? ?]).
Qed.

Lemma script_setup_iff_action_add_witness :
  let args := example_args_with (Some "dtfs-document-intelligence") "azure"
                false false true false in
  exists fs p1,
    (setup_file_strategy full_env args idle_process = (Returned fs, p1)
     /\ searchkey args = Some "search-admin-key")
    /\ exists trace,
         calls (script full_env (fun _ => idle_strategy) args idle_process).2
         = trace
         /\ trace = main_trace idle_strategy args example_search_info tt
         /\ ((exists si', Enter Msetup si' ∈ trace) <-> document_action fs = Add)
         /\ (forall m si', Enter m si' ∈ trace -> si' = example_search_info).
Proof.
  eexists. eexists. split; [split; [cbv; reflexivity|reflexivity]|].
  eapply (script_setup_iff_action_add full_env (fun _ => idle_strategy)
            (example_args_with (Some "dtfs-document-intelligence") "azure"
               false false true false)
            "search-admin-key" idle_process);
    [cbv; reflexivity|reflexivity].
Defined.

(** X8: the [tenantid] argument has no effect: neither
    [setup_file_strategy] nor [main] depends on it. *)
Theorem tenantid_has_no_effect {W : Type} (getenv : string -> option string)
    (strategy : Strategy W) (t : option string) (args : Args) (p : process W) :
  setup_file_strategy getenv (set_tenantid t args) p
    = setup_file_strategy getenv args p
  /\ main strategy (set_tenantid t args) p = main strategy args p.
Proof. by destruct args. Qed.

(** * Properties of the command line *)

Lemma store_keeps_form_recognizer (opts : list option_given) (ns : Args) :
  is_Some (formrecognizerservice ns) ->
  is_Some (formrecognizerservice (foldl (fun ns o => store o ns) ns opts)).
Proof.
  revert ns. induction opts as [|o opts IH]; intros ns Hns; [done|].
  simpl. apply IH. destruct o; simpl; by eauto.
Qed.

(** A flag is set after the options are stored iff it was set before or
    its option occurs among them. *)
Lemma store_remove (opts : list option_given) (ns : Args) :
  remove (foldl (fun ns o => store o ns) ns opts) = true
  <-> remove ns = true \/ opt_remove ∈ opts.
Proof.
  revert ns. induction opts as [|o opts IH]; intros ns.
  - simpl. rewrite elem_of_nil. tauto.
  - simpl. rewrite IH, elem_of_cons. destruct o; simpl; intuition congruence.
Qed.

Lemma store_removeall (opts : list option_given) (ns : Args) :
  removeall (foldl (fun ns o => store o ns) ns opts) = true
  <-> removeall ns = true \/ opt_removeall ∈ opts.
Proof.
  revert ns. induction opts as [|o opts IH]; intros ns.
  - simpl. rewrite elem_of_nil. tauto.
  - simpl. rewrite IH, elem_of_cons. destruct o; simpl; intuition congruence.
Qed.

Lemma store_searchservice (opts : list option_given) (ns : Args) :
  (forall v, opt_searchservice v ∉ opts) ->
  searchservice (foldl (fun ns o => store o ns) ns opts) = searchservice ns.
Proof.
  revert ns. induction opts as [|o opts IH]; intros ns Hno; [done|].
  simpl. rewrite IH.
  - destruct o; try done. exfalso. eapply Hno, list_elem_of_here.
  - intros v Hin. eapply Hno, list_elem_of_further, Hin.
Qed.

(** The first call of [main] is the entry of a strategy method. *)
Lemma main_trace_starts {W : Type} (strategy : Strategy W) (args : Args)
    (si : SearchInfo) (w : W) :
  exists m post, main_trace strategy args si w = Enter m si :: post.
Proof.
  unfold main_trace.
  destruct (negb (remove args) && negb (removeall args)); [|by eexists _, _].
  destruct (setup strategy si w) as [[[]|c|e] w1]; by eexists _, _.
Qed.

(** X9: whatever the command line and the environment, the namespace has
    a Form Recognizer service name, so [setup_file_strategy] never takes
    its error exit: the message about the missing service cannot be
    reached from the command line. *)
Theorem form_recognizer_exit_unreachable {W : Type}
    (getenv : string -> option string) (cl : command_line) (p : process W) :
  is_Some (formrecognizerservice (parse_args getenv cl))
  /\ forall code, (setup_file_strategy getenv (parse_args getenv cl) p).1
                  ≠ SystemExit code.
Proof.
  assert (is_Some (formrecognizerservice (parse_args getenv cl))) as Hsome.
  { unfold parse_args. apply store_keeps_form_recognizer. simpl. by eexists. }
  split; [exact Hsome|]. destruct Hsome as [service Hsvc].
  intros code. by eapply setup_file_strategy_no_exit.
Qed.

(** X10: when the namespace has a search key (given with [--searchkey]
    or read from the environment), [main] enters [setup] exactly when
    neither [--remove] nor [--removeall] occurs on the command line. *)
Theorem setup_iff_no_remove_option {W : Type} (getenv : string -> option string)
    (cl : command_line) (k : string) (strategy : Strategy W) (p : process W) :
  searchkey (parse_args getenv cl) = Some k ->
  exists trace,
    calls (main strategy (parse_args getenv cl) p).2 = (calls p ++ trace)%list
    /\ ((exists si, Enter Msetup si ∈ trace)
        <-> (opt_remove ∉ cl_options cl) /\ (opt_removeall ∉ cl_options cl)).
Proof.
  intros Hkey. eexists. split; [by apply main_calls|].
  match goal with |- context [main_trace ?s ?a ?si ?w] =>
    destruct (main_trace_enter s a si w) as [-> _] end.
  rewrite <- !not_true_iff_false. unfold parse_args.
  rewrite store_remove, store_removeall. simpl. intuition congruence.
Qed.

Lemma setup_iff_no_remove_option_witness :
  searchkey (parse_args full_env epilog_command_line)
    = Some "value-of-AZURE_COGNITIVE_SEARCH_ADMIN_KEY"
  /\ exists trace,
       calls (main idle_strategy (parse_args full_env epilog_command_line)
                idle_process).2 = trace
       /\ ((exists si, Enter Msetup si ∈ trace)
           <-> (opt_remove ∉ cl_options epilog_command_line)
               /\ (opt_removeall ∉ cl_options epilog_command_line)).
Proof.
  split; [reflexivity|].
  apply (setup_iff_no_remove_option full_env epilog_command_line
           "value-of-AZURE_COGNITIVE_SEARCH_ADMIN_KEY" idle_strategy idle_process).
  reflexivity.
Defined.

(** X11: when the namespace has a search key and [--searchservice] is
    not given, [main] raises no error of its own for the missing service
    name: it enters the strategy, and the endpoint of the [SearchInfo]
    it hands over is made from the environment variable
    AZURE_SEARCH_SERVICE; it is https://None.search.windows.net/ when
    that variable is not set either. *)
Theorem search_endpoint_from_environment {W : Type}
    (getenv : string -> option string) (cl : command_line) (k : string)
    (strategy : Strategy W) (p : process W) :
  (forall v, opt_searchservice v ∉ cl_options cl) ->
  searchkey (parse_args getenv cl) = Some k ->
  exists m si post,
    calls (main strategy (parse_args getenv cl) p).2
      = (calls p ++ Enter m si :: post)%list
    /\ si_endpoint si
       = "https://" +:+ fmt (getenv "AZURE_SEARCH_SERVICE") +:+ ".search.windows.net/"
    /\ (getenv "AZURE_SEARCH_SERVICE" = None ->
        si_endpoint si = "https://None.search.windows.net/").
Proof.
  intros Hno Hkey.
  assert (searchservice (parse_args getenv cl) = getenv "AZURE_SEARCH_SERVICE")
    as Hsvc by (unfold parse_args; by rewrite store_searchservice).
  destruct (main_trace_starts strategy (parse_args getenv cl)
              (search_info_of (parse_args getenv cl) {| key := k |}) (world p))
    as (m & post & Htrace).
  exists m, (search_info_of (parse_args getenv cl) {| key := k |}), post.
  split; [by rewrite (main_calls _ _ k), Htrace|].
  unfold search_info_of. simpl. rewrite Hsvc. split; [done|].
  by intros ->.
Qed.

Lemma search_endpoint_from_environment_witness :
  let cl := {| cl_files := Some "data/*";
               cl_options := [opt_searchkey "search-admin-key"; opt_verbose] |} in
  ((forall v, opt_searchservice v ∉ cl_options cl)
   /\ searchkey (parse_args empty_env cl) = Some "search-admin-key")
  /\ exists m si post,
       calls (main idle_strategy (parse_args empty_env cl) idle_process).2
         = Enter m si :: post
       /\ si_endpoint si = "https://None.search.windows.net/".
Proof.
  assert (forall v, opt_searchservice v
                    ∉ [opt_searchkey "search-admin-key"; opt_verbose]) as Hno.
  { intros v Hin.
    repeat (apply elem_of_cons in Hin as [Hin|Hin]; [discriminate Hin|]).
    by apply elem_of_nil in Hin. }
  split; [split; [exact Hno|reflexivity]|].
  destruct (search_endpoint_from_environment empty_env
              {| cl_files := Some "data/*";
                 cl_options := [opt_searchkey "search-admin-key"; opt_verbose] |}
              "search-admin-key" idle_strategy idle_process Hno eq_refl)
    as (m & si & post & Hcalls & _ & Hnone).
  exists m, si, post. split; [exact Hcalls|]. by apply Hnone.
Defined.

Example parse_epilog_command_line :
  let ns := parse_args empty_env epilog_command_line in
  files ns = Some "..\data\*" /\ storageaccount ns = "myaccount"
  /\ container ns = "mycontainer" /\ searchservice ns = Some "mysearch"
  /\ index ns = Some "myindex" /\ verbose ns = true
  /\ remove ns = false /\ removeall ns = false
  /\ formrecognizerservice ns = Some "dtfs-document-intelligence".
Proof. repeat split; reflexivity. Qed.
